(** * omgflux-mcp-server: argument validation, request building and the
      recent-generations cache

    A shallow embedding of [src/types.ts] (the validator
    [isValidImageGenerationArgs]) and of the server class [FluxImageServer]
    (the tool handler [handleGenerateImageTool] and the resource handlers),
    together with the part of the ECMAScript run-time library both rely on.

    Layout: module [JS] holds the language-level operations ([typeof],
    [ToNumber], [ToString], [String.prototype.trim], [JSON.stringify], ...);
    the program's own definitions follow under the names the source gives
    them; the theorems come last. *)

From Stdlib Require Import ZArith List String Ascii Bool Lia DecimalString DecimalNat.
From Stdlib Require Import PrimFloat SpecFloat FloatOps.
Import ListNotations.

#[local] Set Warnings "-inexact-float,-register-all".
#[local] Open Scope string_scope.

(* ================================================================== *)
(** * ECMAScript values and built-in operations *)
(* ================================================================== *)

Module JS.

(** Values that reach the program are produced by [JSON.parse] (tool
    arguments, upstream payloads): [null], booleans, IEEE-754 binary64
    numbers, strings, arrays and plain objects.  An object keeps its
    properties in enumeration order; a property read returns the first
    binding of the key.  [undefined] is not a JSON value: an expression that
    may be [undefined] has type [option Json], [None] standing for it.

    A string is a sequence of code units; [Stdlib]'s [string] covers the
    code units below 256. *)
Inductive Json : Type :=
| JNull
| JBool (b : bool)
| JNumber (x : float)
| JString (s : string)
| JArray (elements : list Json)
| JObject (properties : list (string * Json)).

Definition Value : Type := option Json.
Definition undefined : Value := None.

(** Exceptions a handler can raise or let through.  [McpError] carries the
    protocol error code of the host SDK; [AxiosError] is what
    [axios.isAxiosError] recognises, with the body of the upstream response
    when there was one ([error.response?.data]) and [error.message];
    [OtherError] is any other thrown value. *)
Inductive ErrorCode : Type := InvalidRequest | MethodNotFound | InvalidParams.

Inductive Exception : Type :=
| TypeError
| McpError (code : ErrorCode) (message : string)
| AxiosError (response_data : option Json) (message : string)
| OtherError (description : string).

(** Completion of an expression that may throw. *)
Inductive Result (A : Type) : Type :=
| Return (a : A)
| Throw (e : Exception).
Arguments Return {A} a.
Arguments Throw {A} e.

Definition bind {A B : Type} (r : Result A) (k : A -> Result B) : Result B :=
  match r with
  | Return a => k a
  | Throw e => Throw e
  end.

Notation "x <- c ;; k" := (bind c (fun x => k))
  (at level 61, c at next level, right associativity).

(** ** Strings *)

Definition LF : string := String "010"%char EmptyString.
Definition dquote : string := String "034"%char EmptyString.
Definition backslash : string := String "092"%char EmptyString.

Definition code (c : ascii) : Z := Z.of_N (N_of_ascii c).

(** WhiteSpace and LineTerminator code units below 256: TAB, LF, VT, FF, CR,
    SP and NBSP. *)
Definition isWhiteSpace (c : ascii) : bool :=
  let n := code c in
  ((9 <=? n) && (n <=? 13) || (n =? 32) || (n =? 160))%Z.

Fixpoint trimStart (s : string) : string :=
  match s with
  | EmptyString => EmptyString
  | String c r => if isWhiteSpace c then trimStart r else s
  end.

Fixpoint trimEnd (s : string) : string :=
  match s with
  | EmptyString => EmptyString
  | String c r =>
      match trimEnd r with
      | EmptyString => if isWhiteSpace c then EmptyString else String c EmptyString
      | r' => String c r'
      end
  end.

(** [String.prototype.trim] *)
Definition trim (s : string) : string := trimEnd (trimStart s).

(** [Array.prototype.includes] on an array of string literals: SameValueZero
    never identifies a string with a value of another type. *)
Definition includes (candidates : list string) (v : Value) : bool :=
  match v with
  | Some (JString s) => existsb (String.eqb s) candidates
  | _ => false
  end.

Fixpoint stripPrefix (p s : string) : option string :=
  match p, s with
  | EmptyString, _ => Some s
  | String a p', String b s' => if Ascii.eqb a b then stripPrefix p' s' else None
  | String _ _, EmptyString => None
  end.

(** ** Numbers *)

Definition NaN : float := PrimFloat.nan.
Definition isNaN (x : float) : bool := PrimFloat.is_nan x.
Definition lt (x y : float) : bool := PrimFloat.ltb x y.
Definition gt (x y : float) : bool := PrimFloat.ltb y x.

(** [Number.isInteger]: finite, and without a fractional part. *)
Definition Number_isInteger (x : float) : bool :=
  match Prim2SF x with
  | S754_zero _ => true
  | S754_finite _ m e =>
      if (0 <=? e)%Z then true else (Z.pos m mod 2 ^ (- e) =? 0)%Z
  | S754_infinity _ | S754_nan => false
  end.

(** The binary64 value nearest to [m * 10^e] (ties to even), for [0 <= m].
    Far outside the binary64 range the result is known without computing the
    power of ten: above [10^310] it is an infinity, below [10^-330] a zero. *)
Definition decimalToNumber (negative : bool) (m e : Z) : float :=
  if (m <=? 0)%Z then (if negative then (-0)%float else 0%float)
  else if (310 <? e)%Z then (if negative then neg_infinity else infinity)
  else if (e + Z.log2 m + 1 <? -330)%Z then (if negative then (-0)%float else 0%float)
  else if (0 <=? e)%Z then
    SF2Prim (binary_normalize prec emax ((if negative then - m else m) * 10 ^ e) 0 negative)
  else
    SF2Prim (SFdiv prec emax (S754_finite negative (Z.to_pos m) 0)
                             (S754_finite false (Z.to_pos (10 ^ (- e))) 0)).

Definition digitValue (c : ascii) : option Z :=
  let n := code c in
  if ((48 <=? n) && (n <=? 57))%Z then Some (n - 48)%Z else None.

Definition hexDigitValue (c : ascii) : option Z :=
  let n := code c in
  if ((48 <=? n) && (n <=? 57))%Z then Some (n - 48)%Z
  else if ((97 <=? n) && (n <=? 102))%Z then Some (n - 87)%Z
  else if ((65 <=? n) && (n <=? 70))%Z then Some (n - 55)%Z
  else None.

Definition isDigit (c : ascii) : bool :=
  match digitValue c with Some _ => true | None => false end.

(** The longest prefix of decimal digits, and what follows it. *)
Fixpoint spanDigits (s : string) : list Z * string :=
  match s with
  | EmptyString => ([], s)
  | String c r =>
      match digitValue c with
      | Some d => let (ds, rest) := spanDigits r in (d :: ds, rest)
      | None => ([], s)
      end
  end.

Definition digitsValue (radix : Z) (ds : list Z) : Z :=
  fold_left (fun acc d => acc * radix + d)%Z ds 0%Z.

(** The digits of a string that consists of digits of [radix] only. *)
Fixpoint radixDigits (radix : Z) (s : string) : option (list Z) :=
  match s with
  | EmptyString => Some []
  | String c r =>
      match hexDigitValue c, radixDigits radix r with
      | Some d, Some ds => if (d <? radix)%Z then Some (d :: ds) else None
      | _, _ => None
      end
  end.

Definition nonDecimalLiteral (radix : Z) (s : string) : float :=
  match s, radixDigits radix s with
  | String _ _, Some ds =>
      SF2Prim (binary_normalize prec emax (digitsValue radix ds) 0 false)
  | _, _ => NaN
  end.

(** ExponentPart, or nothing, up to the end of the string. *)
Definition exponentPart (s : string) : option Z :=
  match s with
  | EmptyString => Some 0%Z
  | String c r =>
      if (Ascii.eqb c "e" || Ascii.eqb c "E")%char then
        let '(negative, r) :=
          match r with
          | String "-" r' => (true, r')
          | String "+" r' => (false, r')
          | _ => (false, r)
          end in
        match spanDigits r with
        | (d :: ds, EmptyString) =>
            let v := digitsValue 10 (d :: ds) in
            Some (if negative then - v else v)%Z
        | _ => None
        end
      else None
  end.

(** StrUnsignedDecimalLiteral: [Infinity], or digits with an optional
    fraction and exponent; at least one digit before or after the point. *)
Definition unsignedDecimalLiteral (negative : bool) (s : string) : float :=
  if String.eqb s "Infinity" then (if negative then neg_infinity else infinity)
  else
    let (ip, r1) := spanDigits s in
    let (fp, r2) :=
      match r1 with
      | String "." r => spanDigits r
      | _ => ([], r1)
      end in
    match (ip ++ fp)%list, exponentPart r2 with
    | _ :: _, Some ex =>
        decimalToNumber negative (digitsValue 10 (ip ++ fp)%list)
                        (ex - Z.of_nat (List.length fp))
    | _, _ => NaN
    end.

(** StringToNumber: the string as a StringNumericLiteral, [NaN] when it is
    not one.  Only decimal literals take a sign. *)
Definition StringToNumber (s : string) : float :=
  match trim s with
  | EmptyString => 0%float
  | String "0" (String "x" r) | String "0" (String "X" r) => nonDecimalLiteral 16 r
  | String "0" (String "o" r) | String "0" (String "O" r) => nonDecimalLiteral 8 r
  | String "0" (String "b" r) | String "0" (String "B" r) => nonDecimalLiteral 2 r
  | String "-" r => unsignedDecimalLiteral true r
  | String "+" r => unsignedDecimalLiteral false r
  | t => unsignedDecimalLiteral false t
  end.

(** *** Number::toString (radix 10)

    For a positive finite [x = num / den] the specification asks for integers
    [n], [k] and [s] with [10^(k-1) <= s < 10^k], [s * 10^(n-k)] reading back
    as [x], and [k] as small as possible; among several [s] the one nearest
    to [x]. *)

(** [x < 10^n] *)
Definition belowPow10 (num den n : Z) : bool :=
  if (0 <=? n)%Z then (num <? den * 10 ^ n)%Z else (num * 10 ^ (- n) <? den)%Z.

(** The least [n] with [x < 10^n]: counted up from [n0] when [10^(n0-1) <= x],
    and down from [n0] when [x < 10^n0]. *)
Fixpoint exponentUp (fuel : nat) (num den n0 : Z) : Z :=
  match fuel with
  | O => n0
  | S fuel' =>
      if belowPow10 num den n0 then n0 else exponentUp fuel' num den (n0 + 1)
  end.

Fixpoint exponentDown (fuel : nat) (num den n0 : Z) : Z :=
  match fuel with
  | O => n0
  | S fuel' =>
      if belowPow10 num den (n0 - 1) then exponentDown fuel' num den (n0 - 1) else n0
  end.

(** Binary64 values lie between [10^-324] and [10^309]. *)
Definition decimalExponent (num den : Z) : Z :=
  if (den <=? num)%Z then exponentUp 310 num den 1
  else exponentDown 330 num den 0.

(** The two integers around [x / 10^p], the nearer one first (on a tie the
    even one). *)
Definition neighbours (num den p : Z) : Z * Z :=
  let N := if (0 <=? p)%Z then num else (num * 10 ^ (- p))%Z in
  let D := if (0 <=? p)%Z then (den * 10 ^ p)%Z else den in
  let lo := (N / D)%Z in
  let r := (N mod D)%Z in
  if (2 * r <? D)%Z then (lo, lo + 1)%Z
  else if (D <? 2 * r)%Z then (lo + 1, lo)%Z
  else if Z.even lo then (lo, lo + 1)%Z else (lo + 1, lo)%Z.

(** The shortest [s] (with its power of ten) that reads back as [x], trying
    [k], [k + 1], ... digits; seventeen always suffice for binary64. *)
Fixpoint shortestDigits (fuel : nat) (x : float) (num den n k : Z) : Z * Z :=
  let p := (n - k)%Z in
  let (a, b) := neighbours num den p in
  match fuel with
  | O => (a, p)
  | S fuel' =>
      if PrimFloat.eqb (decimalToNumber false a p) x then (a, p)
      else if PrimFloat.eqb (decimalToNumber false b p) x then (b, p)
      else shortestDigits fuel' x num den n (k + 1)
  end.

Definition decimalString (n : Z) : string :=
  NilZero.string_of_uint (N.to_uint (Z.to_N n)).

Fixpoint dropTrailingZeros (s : string) : string :=
  match s with
  | EmptyString => EmptyString
  | String c r =>
      match dropTrailingZeros r with
      | EmptyString => if Ascii.eqb c "0" then EmptyString else String c EmptyString
      | r' => String c r'
      end
  end.

Fixpoint zeros (n : nat) : string :=
  match n with
  | O => EmptyString
  | S n' => String "0" (zeros n')
  end.

(** The digits of [s] are [digits] ([k] of them) and the value is
    [0.digits * 10^n]. *)
Definition formatDecimal (digits : string) (n : Z) : string :=
  let k := Z.of_nat (String.length digits) in
  if ((k <=? n) && (n <=? 21))%Z then
    digits ++ zeros (Z.to_nat (n - k))
  else if ((0 <? n) && (n <=? 21))%Z then
    substring 0 (Z.to_nat n) digits ++ "."
      ++ substring (Z.to_nat n) (Z.to_nat (k - n)) digits
  else if ((-6 <? n) && (n <=? 0))%Z then
    "0." ++ zeros (Z.to_nat (- n)) ++ digits
  else
    let e := (n - 1)%Z in
    let exponent :=
      (if (e <? 0)%Z then "-" else "+") ++ decimalString (Z.abs e) in
    match digits with
    | String d EmptyString => String d EmptyString ++ "e" ++ exponent
    | String d rest => String d EmptyString ++ "." ++ rest ++ "e" ++ exponent
    | EmptyString => EmptyString
    end.

Definition Number_toString (x : float) : string :=
  match Prim2SF x with
  | S754_nan => "NaN"
  | S754_zero _ => "0"
  | S754_infinity negative => if negative then "-Infinity" else "Infinity"
  | S754_finite negative m e =>
      let num := if (0 <=? e)%Z then (Z.pos m * 2 ^ e)%Z else Z.pos m in
      let den := if (0 <=? e)%Z then 1%Z else (2 ^ (- e))%Z in
      let n := decimalExponent num den in
      let (s, p) := shortestDigits 17 (PrimFloat.abs x) num den n 1 in
      let all := decimalString s in
      (if negative then "-" else "")
        ++ formatDecimal (dropTrailingZeros all) (p + Z.of_nat (String.length all))
  end.

(** ** Types, truthiness and property reads *)

Definition typeof (v : Value) : string :=
  match v with
  | None => "undefined"
  | Some JNull => "object"
  | Some (JBool _) => "boolean"
  | Some (JNumber _) => "number"
  | Some (JString _) => "string"
  | Some (JArray _) | Some (JObject _) => "object"
  end.

(** ToBoolean *)
Definition truthy (v : Value) : bool :=
  match v with
  | None | Some JNull => false
  | Some (JBool b) => b
  | Some (JNumber x) => negb (isNaN x || PrimFloat.eqb x 0)
  | Some (JString s) => negb (String.eqb s "")
  | Some (JArray _) | Some (JObject _) => true
  end.

Fixpoint lookup (key : string) (properties : list (string * Json)) : Value :=
  match properties with
  | [] => None
  | (k, v) :: rest => if String.eqb key k then Some v else lookup key rest
  end.

(** [o.key] for one of the keys the program reads ([prompt], [seed],
    [message], ...): none of them is defined on [Object.prototype],
    [Array.prototype] or a primitive's wrapper, so only an own property of a
    plain object answers.  The program never reads a property of [null] or
    [undefined] without a guard. *)
Definition get (o : Value) (key : string) : Value :=
  match o with
  | Some (JObject properties) => lookup key properties
  | _ => None
  end.

(** [v !== undefined] *)
Definition defined (v : Value) : bool :=
  match v with Some _ => true | None => false end.

Definition hasOwn (key : string) (properties : list (string * Json)) : bool :=
  match lookup key properties with Some _ => true | None => false end.

(** ** Conversions *)

(** ToString.  An array joins its elements with commas, [null] elements as
    empty strings ([Array.prototype.toString]).  A plain object answers
    ["[object Object]"] through [Object.prototype.toString]; when it has an own
    property [toString] (a JSON value, hence not callable) that one shadows
    the inherited method and OrdinaryToPrimitive ends in a TypeError. *)
Fixpoint ToString (v : Json) : Result string :=
  match v with
  | JNull => Return "null"
  | JBool b => Return (if b then "true" else "false")
  | JNumber x => Return (Number_toString x)
  | JString s => Return s
  | JArray elements =>
      (fix join (l : list Json) : Result string :=
         match l with
         | [] => Return EmptyString
         | x :: rest =>
             s <- match x with JNull => Return EmptyString | _ => ToString x end ;;
             match rest with
             | [] => Return s
             | _ :: _ => t <- join rest ;; Return (s ++ "," ++ t)
             end
         end) elements
  | JObject properties =>
      if hasOwn "toString" properties then Throw TypeError
      else Return "[object Object]"
  end.

(** The method call [v.toString()]: as [ToString], except that [null] and
    [undefined] have no properties to call. *)
Definition toString (v : Value) : Result string :=
  match v with
  | None | Some JNull => Throw TypeError
  | Some j => ToString j
  end.

(** ToNumber, which is what [Number(v)] applies. *)
Definition Number (v : Value) : Result float :=
  match v with
  | None => Return NaN
  | Some JNull => Return 0%float
  | Some (JBool b) => Return (if b then 1%float else 0%float)
  | Some (JNumber x) => Return x
  | Some (JString s) => Return (StringToNumber s)
  | Some (JArray l) => s <- ToString (JArray l) ;; Return (StringToNumber s)
  | Some (JObject o) => s <- ToString (JObject o) ;; Return (StringToNumber s)
  end.

(** ** JSON.stringify(value, null, 2) *)

Definition hexDigit (n : Z) : string :=
  String (ascii_of_N (Z.to_N (if (n <? 10)%Z then 48 + n else 87 + n)%Z)) EmptyString.

(** QuoteJSONString, one code unit at a time. *)
Definition escapeCodeUnit (c : ascii) : string :=
  let n := code c in
  if (n =? 8)%Z then backslash ++ "b"
  else if (n =? 9)%Z then backslash ++ "t"
  else if (n =? 10)%Z then backslash ++ "n"
  else if (n =? 12)%Z then backslash ++ "f"
  else if (n =? 13)%Z then backslash ++ "r"
  else if (n =? 34)%Z then backslash ++ dquote
  else if (n =? 92)%Z then backslash ++ backslash
  else if (n <? 32)%Z then backslash ++ "u00" ++ hexDigit (n / 16) ++ hexDigit (n mod 16)
  else String c EmptyString.

Fixpoint escapeString (s : string) : string :=
  match s with
  | EmptyString => EmptyString
  | String c r => escapeCodeUnit c ++ escapeString r
  end.

Definition QuoteJSONString (s : string) : string :=
  dquote ++ escapeString s ++ dquote.

Fixpoint joinWith (separator : string) (parts : list string) : string :=
  match parts with
  | [] => EmptyString
  | [a] => a
  | a :: rest => a ++ separator ++ joinWith separator rest
  end.

(** SerializeJSONProperty with the gap of two spaces; [indent] is the
    indentation of the enclosing structure. *)
Fixpoint SerializeJSON (indent : string) (v : Json) : string :=
  let stepped := indent ++ "  " in
  match v with
  | JNull => "null"
  | JBool b => if b then "true" else "false"
  | JNumber x =>
      match Prim2SF x with
      | S754_nan | S754_infinity _ => "null"
      | _ => Number_toString x
      end
  | JString s => QuoteJSONString s
  | JArray [] => "[]"
  | JArray elements =>
      "[" ++ LF ++ stepped
        ++ joinWith ("," ++ LF ++ stepped) (map (SerializeJSON stepped) elements)
        ++ LF ++ indent ++ "]"
  | JObject [] => "{}"
  | JObject properties =>
      "{" ++ LF ++ stepped
        ++ joinWith ("," ++ LF ++ stepped)
             (map (fun kv => QuoteJSONString (fst kv) ++ ": "
                               ++ SerializeJSON stepped (snd kv)) properties)
        ++ LF ++ indent ++ "}"
  end.

Definition JSON_stringify (v : Json) : string := SerializeJSON EmptyString v.

End JS.

Import JS.

(* ================================================================== *)
(** * src/types.ts *)
(* ================================================================== *)

(** [interface ImageGeneration].  At run time [prompt] holds whatever
    [params.prompt] was; the validator has checked it to be a string before a
    record is made. *)
Record ImageGeneration : Type := {
  prompt : Value;
  response : Json;
  timestamp : string
}.

Definition validRatios : list string :=
  ["21:9"; "16:9"; "3:2"; "4:3"; "5:4"; "1:1"; "4:5"; "3:4"; "2:3"; "9:16"; "9:21"].

(** [isValidImageGenerationArgs]: the checks in the order of the source, each
    one returning [false] at once when it fails.  A block that coerces with
    [Number] first computes whether it rejects; the coercion can throw. *)
Definition isValidImageGenerationArgs (args : Value) : Result bool :=
  if negb (truthy args) || negb (typeof args =? "object") then Return false else
  match get args "prompt" with
  | Some (JString prompt) =>
    if trim prompt =? "" then Return false else
    if defined (get args "image_prompt")
       && negb (typeof (get args "image_prompt") =? "string") then Return false else
    reject <- (if defined (get args "image_prompt_strength") then
                 strength <- Number (get args "image_prompt_strength") ;;
                 Return (isNaN strength || lt strength 0 || gt strength 1)
               else Return false) ;;
    if (reject : bool) then Return false else
    if defined (get args "aspect_ratio")
       && negb (includes validRatios (get args "aspect_ratio")) then Return false else
    reject <- (if defined (get args "safety_tolerance") then
                 tolerance <- Number (get args "safety_tolerance") ;;
                 Return (negb (Number_isInteger tolerance)
                         || lt tolerance 1 || gt tolerance 6)
               else Return false) ;;
    if (reject : bool) then Return false else
    reject <- (if defined (get args "seed") then
                 seed <- Number (get args "seed") ;;
                 Return (negb (Number_isInteger seed))
               else Return false) ;;
    if (reject : bool) then Return false else
    if defined (get args "output_format")
       && negb (includes ["jpg"; "png"] (get args "output_format")) then Return false else
    if defined (get args "raw")
       && negb (typeof (get args "raw") =? "boolean") then Return false else
    if defined (get args "response_format")
       && negb (includes ["url"; "b64_json"] (get args "response_format"))
    then Return false else
    Return true
  | _ => Return false   (* typeof args.prompt !== 'string' *)
  end.

(* ================================================================== *)
(** * The server (index.ts) *)
(* ================================================================== *)

Module OHMYGPT_API_CONFIG.
Definition BASE_URL : string := "https://api.ohmygpt.com".
Module ENDPOINTS.
Definition FLUX_IMAGE : string := "/api/v1/ai/draw/flux/pro-ultra-11".
End ENDPOINTS.
Module DEFAULT_PARAMS.
Definition model : string := "flux-1.1-pro-ultra".
Definition aspect_ratio : string := "1:1".
Definition image_prompt_strength : float := 0.1%float.
Definition output_format : string := "jpg".
Definition raw : bool := false.
Definition safety_tolerance : float := 5%float.
Definition response_format : string := "url".
End DEFAULT_PARAMS.
Definition MAX_CACHED_GENERATIONS : nat := 5.
End OHMYGPT_API_CONFIG.
Import OHMYGPT_API_CONFIG.

(** The part of [class FluxImageServer] that changes over time. *)
Record FluxImageServer : Type := {
  recentImageGenerations : list ImageGeneration
}.

(** [new FluxImageServer()] *)
Definition initial : FluxImageServer := {| recentImageGenerations := [] |}.

(** The entries of a [URLSearchParams], in order. *)
Definition URLSearchParams : Type := list (string * string).

Definition append (formData : URLSearchParams) (name value : string) : URLSearchParams :=
  (formData ++ [(name, value)])%list.

(** An argument of [append] that is not a string already is converted with
    ToString. *)
Definition USVString (v : Value) : Result string :=
  match v with
  | None => Return "undefined"
  | Some j => ToString j
  end.

(** What the world answers during one tool call: [post] is
    [this.ohmygptAxiosInstance.post(url, body)] awaited, giving
    [response.data] or the thrown error; [now] is
    [new Date().toISOString()]. *)
Record Upstream : Type := {
  post : string -> URLSearchParams -> Result Json;
  now : string
}.

(** [{ content: [{ type: "text", text }], isError }] *)
Record CallToolResult : Type := {
  text : string;
  isError : bool
}.

(** How a handler ends: its completion, the server afterwards, and the HTTP
    requests it sent. *)
Record Outcome (A : Type) : Type := {
  completion : Result A;
  server : FluxImageServer;
  requests : list (string * URLSearchParams)
}.
Arguments completion {A} o.
Arguments server {A} o.
Arguments requests {A} o.

(** Lines 185-197 of [handleGenerateImageTool]: the form sent upstream. *)
Definition buildFormData (params : Value) : Result URLSearchParams :=
  let formData : URLSearchParams := [] in
  let formData := append formData "model" DEFAULT_PARAMS.model in
  prompt <- USVString (get params "prompt") ;;
  let formData := append formData "prompt" prompt in
  formData <- (if truthy (get params "image_prompt") then
                 s <- USVString (get params "image_prompt") ;;
                 Return (append formData "image_prompt" s)
               else Return formData) ;;
  formData <- (if defined (get params "image_prompt_strength") then
                 s <- toString (get params "image_prompt_strength") ;;
                 Return (append formData "image_prompt_strength" s)
               else Return formData) ;;
  formData <- (if truthy (get params "aspect_ratio") then
                 s <- USVString (get params "aspect_ratio") ;;
                 Return (append formData "aspect_ratio" s)
               else Return formData) ;;
  formData <- (if defined (get params "safety_tolerance") then
                 s <- toString (get params "safety_tolerance") ;;
                 Return (append formData "safety_tolerance" s)
               else Return formData) ;;
  formData <- (if defined (get params "seed") then
                 s <- toString (get params "seed") ;;
                 Return (append formData "seed" s)
               else Return formData) ;;
  formData <- (if truthy (get params "output_format") then
                 s <- USVString (get params "output_format") ;;
                 Return (append formData "output_format" s)
               else Return formData) ;;
  formData <- (if defined (get params "raw") then
                 s <- toString (get params "raw") ;;
                 Return (append formData "raw" s)
               else Return formData) ;;
  formData <- (if truthy (get params "response_format") then
                 s <- USVString (get params "response_format") ;;
                 Return (append formData "response_format" s)
               else Return formData) ;;
  Return formData.

(** [Array.prototype.unshift] and [Array.prototype.pop], as used on the
    cache. *)
Definition unshift {A : Type} (x : A) (l : list A) : list A := x :: l.
Definition pop {A : Type} (l : list A) : list A := removelast l.

(** [error.response?.data?.message ?? error.message] *)
Definition errorMessage (response_data : Value) (message : string) : Value :=
  match get response_data "message" with
  | None | Some JNull => Some (JString message)
  | Some m => Some m
  end.

Definition handleGenerateImageTool
    (upstream : Upstream) (this : FluxImageServer) (params : Value)
  : Outcome CallToolResult :=
  match isValidImageGenerationArgs params with
  | Throw e => {| completion := Throw e; server := this; requests := [] |}
  | Return false =>
      {| completion := Throw (McpError InvalidParams "Invalid image generation arguments");
         server := this; requests := [] |}
  | Return true =>
      let attempt : Outcome CallToolResult :=          (* try *)
        match buildFormData params with
        | Throw e => {| completion := Throw e; server := this; requests := [] |}
        | Return formData =>
            let sent := [(ENDPOINTS.FLUX_IMAGE, formData)] in
            match post upstream ENDPOINTS.FLUX_IMAGE formData with
            | Throw e => {| completion := Throw e; server := this; requests := sent |}
            | Return data =>
                let cache :=
                  unshift {| prompt := get params "prompt";
                             response := data;
                             timestamp := now upstream |}
                          (recentImageGenerations this) in
                let cache :=
                  if (MAX_CACHED_GENERATIONS <? List.length cache)%nat
                  then pop cache else cache in
                {| completion := Return {| text := JSON_stringify data; isError := false |};
                   server := {| recentImageGenerations := cache |};
                   requests := sent |}
            end
        end in
      match completion attempt with                    (* catch (error) *)
      | Throw (AxiosError response_data message) =>
          {| completion :=
               s <- USVString (errorMessage response_data message) ;;
               Return {| text := "OhMyGPT API error: " ++ s; isError := true |};
             server := server attempt;
             requests := requests attempt |}
      | _ => attempt
      end
  end.

(** The handler of [CallToolRequestSchema]. *)
Definition callTool
    (upstream : Upstream) (this : FluxImageServer) (name : string) (arguments : Value)
  : Outcome CallToolResult :=
  if name =? "generate_image" then handleGenerateImageTool upstream this arguments
  else {| completion := Throw (McpError MethodNotFound ("Unknown tool: " ++ name));
          server := this; requests := [] |}.

(** The [enum] lists of the input schema that [ListToolsRequestSchema]
    advertises for [generate_image]. *)
Module inputSchema.
Definition aspect_ratio_enum : list string :=
  ["21:9"; "16:9"; "3:2"; "4:3"; "5:4"; "1:1"; "4:5"; "3:4"; "2:3"; "9:16"; "9:21"].
Definition output_format_enum : list string := ["jpg"; "png"].
Definition response_format_enum : list string := ["url"].
Definition required : list string := ["prompt"].
End inputSchema.

(** ** Resources *)

(** [`ohmygpt://images/${index}`], the URI the listing gives entry [index]. *)
Definition resourceUri (index : nat) : string :=
  "ohmygpt://images/" ++ NilZero.string_of_uint (Nat.to_uint index).

Fixpoint allDigits (s : string) : bool :=
  match s with
  | EmptyString => true
  | String c r => isDigit c && allDigits r
  end.

(** [uri.match(/^ohmygpt:\/\/images\/(\d+)$/)]: the captured digits. *)
Definition ohmygptMatch (uri : string) : option string :=
  match stripPrefix "ohmygpt://images/" uri with
  | Some (String c r) => if allDigits (String c r) then Some (String c r) else None
  | _ => None
  end.

(** The integer a string of decimal digits denotes.  [parseInt] rounds it to
    the nearest binary64 number, which is the integer itself below [2^53] and
    is at least [2^53] otherwise, where no array has an element: as an array
    index the exact integer reads the same element. *)
Definition parseInt (digits : string) : nat :=
  Z.to_nat (digitsValue 10 (fst (spanDigits digits))).

(** [{ contents: [{ uri, mimeType, text }] }] *)
Record ReadResourceResult : Type := {
  uri : string;
  mimeType : string;
  contents_text : string
}.

(** The handler of [ReadResourceRequestSchema]. *)
Definition readResource (this : FluxImageServer) (request_uri : string)
  : Result ReadResourceResult :=
  match ohmygptMatch request_uri with
  | Some digits =>
      let index := parseInt digits in
      match nth_error (recentImageGenerations this) index with
      | None =>
          Throw (McpError InvalidRequest
                   ("Image generation not found: "
                    ++ Number_toString (decimalToNumber false (Z.of_nat index) 0)))
      | Some generation =>
          Return {| uri := request_uri;
                    mimeType := "application/json";
                    contents_text := JSON_stringify (response generation) |}
      end
  | None => Throw (McpError InvalidRequest ("Unknown resource: " ++ request_uri))
  end.

(** ** Sequences of requests *)

(** A request the host dispatches; a tool call comes with what the upstream
    service answers at that moment. *)
Inductive Request : Type :=
| CallTool (upstream : Upstream) (name : string) (arguments : Value)
| ReadResource (request_uri : string)
| ListResources
| ListTools.

Definition handle (this : FluxImageServer) (r : Request) : FluxImageServer :=
  match r with
  | CallTool upstream name arguments => server (callTool upstream this name arguments)
  | ReadResource _ | ListResources | ListTools => this
  end.

Definition run (this : FluxImageServer) (rs : list Request) : FluxImageServer :=
  fold_left handle rs this.

(* ================================================================== *)
(** * Notions the statements use *)
(* ================================================================== *)

(** The record a request adds to the cache, if it is a generation that
    succeeds. *)
Definition generated (r : Request) : option ImageGeneration :=
  match r with
  | CallTool upstream name arguments =>
      if name =? "generate_image" then
        match isValidImageGenerationArgs arguments with
        | Return true =>
            match buildFormData arguments with
            | Return formData =>
                match post upstream ENDPOINTS.FLUX_IMAGE formData with
                | Return data =>
                    Some {| prompt := get arguments "prompt";
                            response := data;
                            timestamp := now upstream |}
                | Throw _ => None
                end
            | Throw _ => None
            end
        | _ => None
        end
      else None
  | _ => None
  end.

(** The records the successful generations of a sequence produce, oldest
    first. *)
Fixpoint generations (rs : list Request) : list ImageGeneration :=
  match rs with
  | [] => []
  | r :: rest =>
      match generated r with
      | Some g => g :: generations rest
      | None => generations rest
      end
  end.

(** The arguments without the property [key]: what is left when that field
    is not supplied. *)
Definition omit (key : string) (args : Value) : Value :=
  match args with
  | Some (JObject properties) =>
      Some (JObject (filter (fun kv => negb (fst kv =? key)) properties))
  | _ => args
  end.

(** Nothing but white space (the empty string included). *)
Fixpoint whitespaceOnly (s : string) : bool :=
  match s with
  | EmptyString => true
  | String c r => isWhiteSpace c && whitespaceOnly r
  end.

(** The optional fields of a generation request, in the order the form
    takes them. *)
Definition optionalFields : list string :=
  ["image_prompt"; "image_prompt_strength"; "aspect_ratio"; "safety_tolerance";
   "seed"; "output_format"; "raw"; "response_format"].

(** The fields the form takes only when their value is truthy; the others
    are taken whenever they are defined. *)
Definition truthyGuarded : list string :=
  ["image_prompt"; "aspect_ratio"; "output_format"; "response_format"].

(** What the field [key] of [args] contributes to the form. *)
Definition wireEntry (args : Value) (key : string) : URLSearchParams :=
  match get args key with
  | None => []
  | Some v =>
      if existsb (String.eqb key) truthyGuarded && negb (truthy (Some v)) then []
      else match ToString v with
           | Return s => [(key, s)]
           | Throw _ => []
           end
  end.

(** A generation with prompt [p] that the upstream service answers with
    [{ "id": n }]. *)
Definition generation (p : string) (n : float) : Request :=
  CallTool {| post := fun _ _ => Return (JObject [("id", JNumber n)]);
              now := "2025-01-01T00:00:00.000Z" |}
           "generate_image" (Some (JObject [("prompt", JString p)])).

(** ** The resource listing *)

(** An entry of [{ resources: [...] }]. *)
Module Resource.
Record t : Type := {
  uri : string;
  name : string;
  mimeType : string;
  description : string
}.
End Resource.

(** The callback of [this.recentImageGenerations.map] in the handler of
    [ListResourcesRequestSchema].  [substring] and [length] are read from
    [generation.prompt]: only a string has the method, on any other value the
    call is a TypeError. *)
Definition listedResource (generation : ImageGeneration) (index : nat)
  : Result Resource.t :=
  match prompt generation with
  | Some (JString p) =>
      Return {| Resource.uri := resourceUri index;
                Resource.name :=
                  "Recent image: " ++ substring 0 30 p
                    ++ (if (30 <? String.length p)%nat then "..." else "");
                Resource.mimeType := "application/json";
                Resource.description :=
                  "Image generation for: " ++ p
                    ++ " (" ++ timestamp generation ++ ")" |}
  | _ => Throw TypeError
  end.

(** [Array.prototype.map] over the entries from position [index] on. *)
Fixpoint listFrom (index : nat) (entries : list ImageGeneration)
  : Result (list Resource.t) :=
  match entries with
  | [] => Return []
  | g :: rest =>
      r <- listedResource g index ;;
      rs <- listFrom (S index) rest ;;
      Return (r :: rs)
  end.

(** The handler of [ListResourcesRequestSchema]. *)
Definition listResources (this : FluxImageServer) : Result (list Resource.t) :=
  listFrom 0 (recentImageGenerations this).

(** [axios.isAxiosError] *)
Definition isAxiosError (e : Exception) : bool :=
  match e with
  | AxiosError _ _ => true
  | _ => false
  end.

(** The fields the validator and the form builder read. *)
Definition knownFields : list string := "prompt" :: optionalFields.

(* ================================================================== *)
(** * Properties *)
(* ================================================================== *)

(** ** Property reads *)

Lemma lookup_filter_same (key : string) (ps : list (string * Json)) :
  lookup key (filter (fun kv => negb (fst kv =? key)) ps) = None.
Proof.
  induction ps as [|[k v] ps IH]; simpl; [reflexivity|].
  destruct (k =? key) eqn:E; simpl; [exact IH|].
  rewrite String.eqb_sym, E. exact IH.
Qed.

Lemma lookup_filter_other (key other : string) (ps : list (string * Json)) :
  other <> key ->
  lookup other (filter (fun kv => negb (fst kv =? key)) ps) = lookup other ps.
Proof.
  intros Hne. induction ps as [|[k v] ps IH]; simpl; [reflexivity|].
  destruct (k =? key) eqn:E; simpl.
  - apply String.eqb_eq in E. subst k.
    destruct (other =? key) eqn:E'; [apply String.eqb_eq in E'; contradiction|exact IH].
  - rewrite IH. reflexivity.
Qed.

Lemma get_omit_same (key : string) (args : Value) :
  get (omit key args) key = None.
Proof.
  destruct args as [[| | | | |ps]|]; simpl; try reflexivity.
  apply lookup_filter_same.
Qed.

Lemma get_omit_other (key other : string) (args : Value) :
  other <> key -> get (omit key args) other = get args other.
Proof.
  intros Hne. destruct args as [[| | | | |ps]|]; simpl; try reflexivity.
  apply lookup_filter_other; exact Hne.
Qed.

Lemma truthy_omit (key : string) (args : Value) :
  truthy (omit key args) = truthy args.
Proof. destruct args as [[| | | | |ps]|]; reflexivity. Qed.

Lemma typeof_omit (key : string) (args : Value) :
  typeof (omit key args) = typeof args.
Proof. destruct args as [[| | | | |ps]|]; reflexivity. Qed.

(** Rewrites every read of [omit key args] into a read of [args]. *)
Ltac reads_of_omit H :=
  rewrite ?truthy_omit, ?typeof_omit, ?get_omit_same in H;
  repeat (rewrite get_omit_other in H by (intro; discriminate)).

(** Follows the validator down its checks: a check that fails contradicts
    [H], which says that the validator accepted. *)
Ltac descend H :=
  repeat match type of H with
         | Return false = Return true => discriminate H
         | Throw _ = Return _ => discriminate H
         | context [if ?c then _ else _] =>
             let E := fresh "E" in destruct c eqn:E; simpl in H |- *
         | context [match ?x with _ => _ end] =>
             let E := fresh "E" in destruct x eqn:E; simpl in H |- *
         end.

(** ** Trimming *)

Lemma trimEnd_empty (s : string) :
  trimEnd s = EmptyString <-> whitespaceOnly s = true.
Proof.
  induction s as [|c r IH]; simpl; [tauto|].
  destruct (trimEnd r) eqn:E.
  - destruct (isWhiteSpace c); simpl.
    + apply IH.
    + split; intro H; discriminate H.
  - split; intro H; [discriminate H|].
    apply andb_true_iff in H. destruct H as [_ H].
    apply IH in H. discriminate H.
Qed.

Lemma trimStart_whitespaceOnly (s : string) :
  whitespaceOnly (trimStart s) = whitespaceOnly s.
Proof.
  induction s as [|c r IH]; simpl; [reflexivity|].
  destruct (isWhiteSpace c) eqn:E; simpl; [exact IH|].
  rewrite E. reflexivity.
Qed.

(** A prompt trims to the empty string exactly when it is empty or consists
    of white space only. *)
Lemma trim_empty (s : string) :
  trim s = EmptyString <-> whitespaceOnly s = true.
Proof.
  unfold trim. rewrite trimEnd_empty, trimStart_whitespaceOnly. tauto.
Qed.

(** ** The validator *)

(** As [descend], leaving the goal alone. *)
Ltac descend_in H :=
  repeat match type of H with
         | Return false = Return true => discriminate H
         | Throw _ = Return _ => discriminate H
         | context [if ?c then _ else _] =>
             let E := fresh "E" in destruct c eqn:E; simpl in H
         | context [match ?x with _ => _ end] =>
             let E := fresh "E" in destruct x eqn:E; simpl in H
         end.

Ltac guard_passed :=
  match goal with
  | E : ?d && negb ?b = false |- ?d = true -> _ =>
      let Hd := fresh in
      intro Hd; rewrite Hd in E; apply negb_false_iff in E;
      first [ apply String.eqb_eq; exact E | exact E ]
  end.

Ltac coerced :=
  match goal with
  | |- false = true -> _ => let Hd := fresh in intro Hd; discriminate Hd
  | E : match Number ?v with _ => _ end = Return false
    |- _ -> exists x, Number ?v = _ /\ _ =>
      intros _; destruct (Number v) as [x|]; [|discriminate E];
      injection E as E; exists x; split; [reflexivity|];
      first [ exact E | apply negb_false_iff; exact E ]
  end.

(** What acceptance says about each field. *)
Lemma accepted_fields (args : Value) :
  isValidImageGenerationArgs args = Return true ->
  (exists p, get args "prompt" = Some (JString p) /\ trim p <> "")
  /\ (defined (get args "image_prompt") = true ->
        typeof (get args "image_prompt") = "string")
  /\ (defined (get args "image_prompt_strength") = true ->
        exists x, Number (get args "image_prompt_strength") = Return x
                  /\ isNaN x || lt x 0 || gt x 1 = false)
  /\ (defined (get args "aspect_ratio") = true ->
        includes validRatios (get args "aspect_ratio") = true)
  /\ (defined (get args "safety_tolerance") = true ->
        exists x, Number (get args "safety_tolerance") = Return x
                  /\ negb (Number_isInteger x) || lt x 1 || gt x 6 = false)
  /\ (defined (get args "seed") = true ->
        exists x, Number (get args "seed") = Return x
                  /\ Number_isInteger x = true)
  /\ (defined (get args "output_format") = true ->
        includes ["jpg"; "png"] (get args "output_format") = true)
  /\ (defined (get args "raw") = true -> typeof (get args "raw") = "boolean")
  /\ (defined (get args "response_format") = true ->
        includes ["url"; "b64_json"] (get args "response_format") = true).
Proof.
  intros H. unfold isValidImageGenerationArgs, bind in H.
  descend_in H.
  all: split; [eexists; split; [reflexivity|]; intro Ht;
               match goal with E : (trim _ =? "") = false |- _ =>
                 rewrite Ht in E; discriminate E end|].
  all: repeat split; first [guard_passed | coerced].
Qed.

(** A guard whose condition holds, and a coerced value that passes, let the
    validator go on to the next rule. *)
Lemma guard_holds {A : Type} (d b : bool) (no yes : A) :
  (d = true -> b = true) -> (if d && negb b then no else yes) = yes.
Proof. destruct d, b; intros H; try reflexivity. discriminate (H eq_refl). Qed.

Lemma coercion_holds (d : bool) (n : Result float) (r : float -> bool)
    (k : Result bool) :
  (d = true -> exists x, n = Return x /\ r x = false) ->
  (reject <- (if d then x <- n ;; Return (r x) else Return false) ;;
   if (reject : bool) then Return false else k) = k.
Proof.
  destruct d; intros H; [|reflexivity].
  destruct (H eq_refl) as (x & -> & Hr). simpl. rewrite Hr. reflexivity.
Qed.

(** Conversely, an input that satisfies every rule is accepted: with
    [accepted_fields], acceptance is the conjunction of the rules. *)
Lemma accepted_when_all_rules_hold (args : Value) :
  (exists p, get args "prompt" = Some (JString p) /\ trim p <> "")
  /\ (defined (get args "image_prompt") = true ->
        typeof (get args "image_prompt") = "string")
  /\ (defined (get args "image_prompt_strength") = true ->
        exists x, Number (get args "image_prompt_strength") = Return x
                  /\ isNaN x || lt x 0 || gt x 1 = false)
  /\ (defined (get args "aspect_ratio") = true ->
        includes validRatios (get args "aspect_ratio") = true)
  /\ (defined (get args "safety_tolerance") = true ->
        exists x, Number (get args "safety_tolerance") = Return x
                  /\ negb (Number_isInteger x) || lt x 1 || gt x 6 = false)
  /\ (defined (get args "seed") = true ->
        exists x, Number (get args "seed") = Return x
                  /\ Number_isInteger x = true)
  /\ (defined (get args "output_format") = true ->
        includes ["jpg"; "png"] (get args "output_format") = true)
  /\ (defined (get args "raw") = true -> typeof (get args "raw") = "boolean")
  /\ (defined (get args "response_format") = true ->
        includes ["url"; "b64_json"] (get args "response_format") = true) ->
  isValidImageGenerationArgs args = Return true.
Proof.
  intros ((p & Hp & Htrim) & Hip & Hips & Har & Hst & Hsd & Hof & Hraw & Hrf).
  assert (Hobj : negb (truthy args) || negb (typeof args =? "object") = false).
  { destruct args as [[| | | | |ps]|]; try discriminate Hp. reflexivity. }
  unfold isValidImageGenerationArgs. rewrite Hobj, Hp.
  destruct (trim p =? "") eqn:E; [apply String.eqb_eq in E; contradiction|].
  rewrite guard_holds by (intro Hd; apply String.eqb_eq; auto).
  rewrite (coercion_holds _ _ (fun x => isNaN x || lt x 0 || gt x 1)) by exact Hips.
  rewrite guard_holds by exact Har.
  rewrite (coercion_holds _ _ (fun x => negb (Number_isInteger x) || lt x 1 || gt x 6))
    by exact Hst.
  rewrite (coercion_holds _ _ (fun x => negb (Number_isInteger x))).
  2: { intro Hd. destruct (Hsd Hd) as (x & Hx & Hr). exists x. rewrite Hr. auto. }
  rewrite guard_holds by exact Hof.
  rewrite guard_holds by (intro Hd; apply String.eqb_eq; auto).
  rewrite guard_holds by exact Hrf.
  reflexivity.
Qed.

(** A value whose coercion throws (an object with an own property
    [toString], alone or inside an array) makes the validator throw the same
    exception when the other rules are satisfied: such an input is neither
    accepted nor answered with [false]. *)
Lemma coercion_failure_is_thrown (key : string) (args : Value) (v : Json) (e : Exception) :
  In key ["image_prompt_strength"; "safety_tolerance"; "seed"] ->
  isValidImageGenerationArgs (omit key args) = Return true ->
  get args key = Some v ->
  Number (Some v) = Throw e ->
  isValidImageGenerationArgs args = Throw e.
Proof.
  intros Hkey H Hv He. simpl in Hkey.
  destruct Hkey as [<-|[<-|[<-|[]]]];
    unfold isValidImageGenerationArgs in *;
    reads_of_omit H; rewrite Hv; simpl defined; cbv iota; rewrite He;
    unfold bind in *; simpl in H; descend H; reflexivity.
Qed.

Lemma typeof_string (v : Value) :
  typeof v = "string" -> exists s, v = Some (JString s).
Proof.
  destruct v as [[| | |s| |]|]; simpl; intro H; try discriminate H.
  exists s. reflexivity.
Qed.

(** C5. The validator returns [false] for every input that is not a
    non-null object ([null], [undefined] or a primitive), that has no
    [prompt], whose [prompt] is not a string, or whose [prompt] is empty or
    white space only, that is, empty once trimmed.  No such input is
    accepted. *)
Theorem prompt_is_required (args : Value) :
  args = Some JNull
  \/ typeof args <> "object"
  \/ get args "prompt" = None
  \/ typeof (get args "prompt") <> "string"
  \/ (exists p, get args "prompt" = Some (JString p)
                /\ (trim p = "" \/ whitespaceOnly p = true)) ->
  isValidImageGenerationArgs args = Return false.
Proof.
  intros H. unfold isValidImageGenerationArgs.
  destruct (negb (truthy args) || negb (typeof args =? "object")) eqn:Eobj;
    [reflexivity|].
  apply orb_false_iff in Eobj. destruct Eobj as [Etruthy Etype].
  apply negb_false_iff in Etruthy, Etype. apply String.eqb_eq in Etype.
  destruct H as [H|[H|[H|[H|(p & Hp & H)]]]].
  - subst args. discriminate Etruthy.
  - contradiction.
  - rewrite H. reflexivity.
  - destruct (get args "prompt") as [[| | |s| |]|]; try reflexivity.
    exfalso. apply H. reflexivity.
  - rewrite Hp.
    assert (Ht : trim p = "") by (destruct H as [H|H]; [exact H|apply trim_empty; exact H]).
    rewrite Ht. reflexivity.
Qed.

Lemma prompt_is_required_witness :
  isValidImageGenerationArgs (Some (JObject [("prompt", JString "   ")])) = Return false
  /\ isValidImageGenerationArgs (Some (JObject [("seed", JNumber 7)])) = Return false
  /\ isValidImageGenerationArgs (Some (JString "a cat")) = Return false.
Proof.
  split; [|split].
  - apply prompt_is_required. do 4 right. exists "   ". split; [reflexivity|].
    left. reflexivity.
  - apply prompt_is_required. right. right. left. reflexivity.
  - apply prompt_is_required. right. left. discriminate.
Defined.

(** C6. When every other rule is satisfied (the input without the field is
    accepted) and [image_prompt_strength] is supplied with a value that
    [Number] coerces to [x], the validator returns [false] when [x] is [NaN]
    (the value is not coercible to a number), below 0 or above 1, and [true]
    otherwise; -0.1 and 1.5 are rejected, 0 and 1 accepted.  A value on which
    the coercion itself throws is not accepted either: the validator throws. *)
Theorem image_prompt_strength_in_unit_interval (args : Value) (v : Json) :
  isValidImageGenerationArgs (omit "image_prompt_strength" args) = Return true ->
  get args "image_prompt_strength" = Some v ->
  (forall x, Number (Some v) = Return x ->
     (isNaN x || lt x 0 || gt x 1 = true ->
        isValidImageGenerationArgs args = Return false)
     /\ (isNaN x || lt x 0 || gt x 1 = false ->
        isValidImageGenerationArgs args = Return true))
  /\ (v = JNumber (-0.1) \/ v = JNumber 1.5 ->
        isValidImageGenerationArgs args = Return false)
  /\ (v = JNumber 0 \/ v = JNumber 1 ->
        isValidImageGenerationArgs args = Return true)
  /\ (forall e, Number (Some v) = Throw e ->
        isValidImageGenerationArgs args = Throw e).
Proof.
  intros H Hv.
  assert (Hx : forall x, Number (Some v) = Return x ->
            isValidImageGenerationArgs args
            = Return (negb (isNaN x || lt x 0 || gt x 1))).
  { intros x Hx. unfold isValidImageGenerationArgs in *.
    reads_of_omit H. rewrite Hv. simpl defined. cbv iota. rewrite Hx.
    unfold bind in *. simpl in H. descend H.
    all: destruct (isNaN x || lt x 0 || gt x 1); reflexivity. }
  split; [|split; [|split]].
  - intros x Hn. split; intro Hr; rewrite (Hx x Hn), Hr; reflexivity.
  - intros [-> | ->]; erewrite Hx by reflexivity; reflexivity.
  - intros [-> | ->]; erewrite Hx by reflexivity; reflexivity.
  - intros e He.
    apply (coercion_failure_is_thrown "image_prompt_strength" args v e);
      simpl; auto.
Qed.

Lemma image_prompt_strength_witness :
  isValidImageGenerationArgs
    (Some (JObject [("prompt", JString "a cat");
                    ("image_prompt_strength", JNumber 1.5)])) = Return false
  /\ isValidImageGenerationArgs
       (Some (JObject [("prompt", JString "a cat");
                       ("image_prompt_strength", JNumber 1)])) = Return true.
Proof.
  split.
  - refine (proj1 (proj2 (image_prompt_strength_in_unit_interval
                            _ (JNumber 1.5) _ _)) _);
      [reflexivity | reflexivity | right; reflexivity].
  - refine (proj1 (proj2 (proj2 (image_prompt_strength_in_unit_interval
                                   _ (JNumber 1) _ _))) _);
      [reflexivity | reflexivity | right; reflexivity].
Defined.

(** C7. When every other rule is satisfied and [safety_tolerance] is
    supplied with a value that [Number] coerces to [x], the validator returns
    [false] when [x] is not an integer, below 1 or above 6, and [true]
    otherwise; 0 and 7 are rejected, 1 and 6 accepted.  A value on which the
    coercion itself throws is not accepted either: the validator throws. *)
Theorem safety_tolerance_between_1_and_6 (args : Value) (v : Json) :
  isValidImageGenerationArgs (omit "safety_tolerance" args) = Return true ->
  get args "safety_tolerance" = Some v ->
  (forall x, Number (Some v) = Return x ->
     (negb (Number_isInteger x) || lt x 1 || gt x 6 = true ->
        isValidImageGenerationArgs args = Return false)
     /\ (negb (Number_isInteger x) || lt x 1 || gt x 6 = false ->
        isValidImageGenerationArgs args = Return true))
  /\ (v = JNumber 0 \/ v = JNumber 7 ->
        isValidImageGenerationArgs args = Return false)
  /\ (v = JNumber 1 \/ v = JNumber 6 ->
        isValidImageGenerationArgs args = Return true)
  /\ (forall e, Number (Some v) = Throw e ->
        isValidImageGenerationArgs args = Throw e).
Proof.
  intros H Hv.
  assert (Hx : forall x, Number (Some v) = Return x ->
            isValidImageGenerationArgs args
            = Return (negb (negb (Number_isInteger x) || lt x 1 || gt x 6))).
  { intros x Hx. unfold isValidImageGenerationArgs in *.
    reads_of_omit H. rewrite Hv. simpl defined. cbv iota. rewrite Hx.
    unfold bind in *. simpl in H. descend H.
    all: destruct (negb (Number_isInteger x) || lt x 1 || gt x 6); reflexivity. }
  split; [|split; [|split]].
  - intros x Hn. split; intro Hr; rewrite (Hx x Hn), Hr; reflexivity.
  - intros [-> | ->]; erewrite Hx by reflexivity; reflexivity.
  - intros [-> | ->]; erewrite Hx by reflexivity; reflexivity.
  - intros e He.
    apply (coercion_failure_is_thrown "safety_tolerance" args v e);
      simpl; auto.
Qed.

Lemma safety_tolerance_witness :
  isValidImageGenerationArgs
    (Some (JObject [("prompt", JString "a cat");
                    ("safety_tolerance", JNumber 7)])) = Return false
  /\ isValidImageGenerationArgs
       (Some (JObject [("prompt", JString "a cat");
                       ("safety_tolerance", JNumber 6)])) = Return true.
Proof.
  split.
  - refine (proj1 (proj2 (safety_tolerance_between_1_and_6
                            _ (JNumber 7) _ _)) _);
      [reflexivity | reflexivity | right; reflexivity].
  - refine (proj1 (proj2 (proj2 (safety_tolerance_between_1_and_6
                                   _ (JNumber 6) _ _))) _);
      [reflexivity | reflexivity | right; reflexivity].
Defined.

Lemma includes_url_b64_json (v : Json) :
  includes ["url"; "b64_json"] (Some v) = true
  <-> v = JString "url" \/ v = JString "b64_json".
Proof.
  destruct v as [| | |s| |]; simpl;
    try (split; [intro H; discriminate H | intros [H|H]; discriminate H]).
  rewrite !orb_true_iff, !String.eqb_eq. split.
  - intros [H|[H|H]]; [left | right | discriminate H]; congruence.
  - intros [H|H]; injection H as ->; auto.
Qed.

(** C9. When every other rule is satisfied and [response_format] is
    supplied, the validator accepts exactly when the value is the string
    ["url"] or the string ["b64_json"]; the schema advertised for the tool
    lists ["url"] only, so ["b64_json"] is accepted without being
    advertised. *)
Theorem response_format_url_or_b64_json (args : Value) (v : Json) :
  isValidImageGenerationArgs (omit "response_format" args) = Return true ->
  get args "response_format" = Some v ->
  (v = JString "url" \/ v = JString "b64_json" ->
     isValidImageGenerationArgs args = Return true)
  /\ (~ (v = JString "url" \/ v = JString "b64_json") ->
     isValidImageGenerationArgs args = Return false)
  /\ inputSchema.response_format_enum = ["url"]
  /\ ~ In "b64_json" inputSchema.response_format_enum.
Proof.
  intros H Hv.
  assert (Hx : isValidImageGenerationArgs args
               = Return (includes ["url"; "b64_json"] (Some v))).
  { unfold isValidImageGenerationArgs in *.
    reads_of_omit H. rewrite Hv. simpl defined.
    generalize (includes ["url"; "b64_json"] (Some v)). intro b.
    unfold bind in *. simpl in H. descend H.
    all: destruct b; reflexivity. }
  split; [|split; [|split]].
  - intro Hm. apply includes_url_b64_json in Hm. rewrite Hx, Hm. reflexivity.
  - intro Hm. rewrite Hx.
    destruct (includes ["url"; "b64_json"] (Some v)) eqn:E; [|reflexivity].
    apply includes_url_b64_json in E. contradiction.
  - reflexivity.
  - simpl. intros [H'|[]]. discriminate H'.
Qed.

Lemma response_format_witness :
  isValidImageGenerationArgs
    (Some (JObject [("prompt", JString "a cat");
                    ("response_format", JString "b64_json")])) = Return true.
Proof.
  refine (proj1 (response_format_url_or_b64_json _ (JString "b64_json") _ _) _);
    [reflexivity | reflexivity | right; reflexivity].
Defined.

(** ** The tool handler *)

(** C8. When the validator returns [false] the handler throws the protocol
    error [InvalidParams], sends no HTTP request and leaves the server, its
    cache included, as it was; so does the tool call that dispatches to it. *)
Theorem invalid_arguments_are_refused
    (upstream : Upstream) (this : FluxImageServer) (params : Value) :
  isValidImageGenerationArgs params = Return false ->
  let outcome := handleGenerateImageTool upstream this params in
  completion outcome = Throw (McpError InvalidParams "Invalid image generation arguments")
  /\ requests outcome = []
  /\ server outcome = this
  /\ recentImageGenerations (server outcome) = recentImageGenerations this
  /\ callTool upstream this "generate_image" params = outcome.
Proof.
  intros H. unfold callTool, handleGenerateImageTool. simpl. rewrite H.
  repeat split.
Qed.

Lemma invalid_arguments_witness :
  let upstream := {| post := fun _ _ => Return JNull; now := "2025-01-01T00:00:00.000Z" |} in
  let outcome :=
    handleGenerateImageTool upstream initial
      (Some (JObject [("prompt", JString "a cat"); ("safety_tolerance", JNumber 0)])) in
  completion outcome = Throw (McpError InvalidParams "Invalid image generation arguments")
  /\ requests outcome = []
  /\ server outcome = initial
  /\ recentImageGenerations (server outcome) = recentImageGenerations initial
  /\ callTool upstream initial "generate_image"
       (Some (JObject [("prompt", JString "a cat"); ("safety_tolerance", JNumber 0)]))
     = outcome.
Proof.
  apply (invalid_arguments_are_refused
           {| post := fun _ _ => Return JNull; now := "2025-01-01T00:00:00.000Z" |}
           initial
           (Some (JObject [("prompt", JString "a cat"); ("safety_tolerance", JNumber 0)]))).
  reflexivity.
Defined.

(** The server changes only when the request was accepted, the form was
    built and the upstream call returned a payload. *)
Lemma server_changes_only_on_success
    (upstream : Upstream) (this : FluxImageServer) (params : Value) :
  server (handleGenerateImageTool upstream this params) = this
  \/ exists formData data,
       isValidImageGenerationArgs params = Return true
       /\ buildFormData params = Return formData
       /\ post upstream ENDPOINTS.FLUX_IMAGE formData = Return data.
Proof.
  unfold handleGenerateImageTool.
  destruct (isValidImageGenerationArgs params) as [[|]|e]; [|left; reflexivity ..].
  destruct (buildFormData params) as [formData|e]; simpl.
  - destruct (post upstream ENDPOINTS.FLUX_IMAGE formData) as [data|e] eqn:Epost; simpl.
    + right. exists formData, data. repeat split. exact Epost.
    + left. destruct e; reflexivity.
  - left. destruct e; reflexivity.
Qed.

Section UpstreamFailure.

(** An accepted request whose form was built and whose upstream call threw
    [e]. *)
Variables (upstream : Upstream) (this : FluxImageServer) (params : Value).
Variables (formData : URLSearchParams) (e : Exception).
Hypothesis accepted : isValidImageGenerationArgs params = Return true.
Hypothesis built : buildFormData params = Return formData.
Hypothesis failed : post upstream ENDPOINTS.FLUX_IMAGE formData = Throw e.

(** C10. When the upstream call of an accepted request fails, whatever the
    error and whether it is converted or thrown on, the server and its cache
    are afterwards what they were before: nothing is inserted and nothing is
    evicted.  The one request of the call is the failed one. *)
Theorem failed_upstream_call_keeps_cache :
  server (handleGenerateImageTool upstream this params) = this
  /\ recentImageGenerations (server (handleGenerateImageTool upstream this params))
     = recentImageGenerations this
  /\ requests (handleGenerateImageTool upstream this params)
     = [(ENDPOINTS.FLUX_IMAGE, formData)].
Proof.
  split; [|split].
  - destruct (server_changes_only_on_success upstream this params)
      as [H|(formData' & data & _ & Hform' & Hpost')]; [exact H|].
    rewrite built in Hform'. injection Hform' as <-.
    rewrite failed in Hpost'. discriminate Hpost'.
  - unfold handleGenerateImageTool. rewrite accepted, built, failed.
    destruct e; reflexivity.
  - unfold handleGenerateImageTool. rewrite accepted, built, failed.
    destruct e; reflexivity.
Qed.

(** What the handler does when the upstream call of an accepted request
    throws: an Axios error becomes a tool result with [isError] set whose
    text ends with the [message] of the upstream error body when the body has
    one with a string form (a string, or another value that is not [null]),
    and with the error's own message when the body has none; any other error
    is thrown on unchanged. *)
Lemma upstream_failure_is_reported :
  let outcome := completion (handleGenerateImageTool upstream this params) in
  (forall body message, e = AxiosError body message ->
     (forall s, get body "message" = Some (JString s) ->
        outcome = Return {| text := "OhMyGPT API error: " ++ s; isError := true |})
     /\ (forall m s, get body "message" = Some m -> m <> JNull -> ToString m = Return s ->
        outcome = Return {| text := "OhMyGPT API error: " ++ s; isError := true |})
     /\ (get body "message" = None \/ get body "message" = Some JNull ->
        outcome = Return {| text := "OhMyGPT API error: " ++ message; isError := true |}))
  /\ ((forall body message, e <> AxiosError body message) -> outcome = Throw e).
Proof.
  unfold handleGenerateImageTool.
  rewrite accepted, built, failed. simpl. split.
  - intros body message ->. simpl. unfold errorMessage.
    assert (Hgeneral : forall m s,
              get body "message" = Some m -> m <> JNull -> ToString m = Return s ->
              s0 <- USVString match get body "message" with
                              | None | Some JNull => Some (JString message)
                              | Some m0 => Some m0
                              end ;;
              Return {| text := "OhMyGPT API error: " ++ s0; isError := true |}
              = Return {| text := "OhMyGPT API error: " ++ s; isError := true |}).
    { intros m s Hm Hnull Hs. rewrite Hm.
      destruct m; try contradiction; simpl in *; rewrite ?Hs; try reflexivity;
        injection Hs as <-; reflexivity. }
    split; [|split].
    + intros s Hm. apply (Hgeneral (JString s) s Hm); [discriminate|reflexivity].
    + exact Hgeneral.
    + intros [Hm|Hm]; rewrite Hm; reflexivity.
  - intros Hother. destruct e; try reflexivity.
    exfalso. eapply Hother. reflexivity.
Qed.

End UpstreamFailure.

Lemma failed_upstream_call_witness :
  let failing :=
    {| post := fun _ _ => Throw (AxiosError None "Network Error");
       now := "2025-01-01T00:00:00.000Z" |} in
  let this :=
    {| recentImageGenerations :=
         [{| prompt := Some (JString "a dog");
             response := JObject [("url", JString "https://cdn.example/1.jpg")];
             timestamp := "2024-12-31T23:59:59.000Z" |}] |} in
  let params := Some (JObject [("prompt", JString "a cat")]) in
  server (handleGenerateImageTool failing this params) = this
  /\ recentImageGenerations (server (handleGenerateImageTool failing this params))
     = recentImageGenerations this
  /\ requests (handleGenerateImageTool failing this params)
     = [(ENDPOINTS.FLUX_IMAGE, [("model", "flux-1.1-pro-ultra"); ("prompt", "a cat")])].
Proof.
  apply (failed_upstream_call_keeps_cache _ _ _
           [("model", "flux-1.1-pro-ultra"); ("prompt", "a cat")]
           (AxiosError None "Network Error"));
    reflexivity.
Defined.

Lemma upstream_failure_witness :
  let body := Some (JObject [("message", JString "quota exceeded")]) in
  let failing :=
    {| post := fun _ _ => Throw (AxiosError body "Request failed with status code 429");
       now := "2025-01-01T00:00:00.000Z" |} in
  let params := Some (JObject [("prompt", JString "a cat")]) in
  completion (handleGenerateImageTool failing initial params)
  = Return {| text := "OhMyGPT API error: quota exceeded"; isError := true |}.
Proof.
  refine (proj1 (proj1 (upstream_failure_is_reported
                          {| post := fun _ _ =>
                                       Throw (AxiosError
                                                (Some (JObject [("message", JString "quota exceeded")]))
                                                "Request failed with status code 429");
                             now := "2025-01-01T00:00:00.000Z" |}
                          initial (Some (JObject [("prompt", JString "a cat")]))
                          [("model", "flux-1.1-pro-ultra"); ("prompt", "a cat")]
                          _ _ _ _) _ _ eq_refl)
                 "quota exceeded" _);
    reflexivity.
Defined.

(** ** The cache *)

Lemma handle_generated (this : FluxImageServer) (r : Request) (g : ImageGeneration) :
  generated r = Some g ->
  recentImageGenerations (handle this r)
  = let cache := unshift g (recentImageGenerations this) in
    if (MAX_CACHED_GENERATIONS <? List.length cache)%nat then pop cache else cache.
Proof.
  destruct r as [upstream name arguments| | |]; simpl; try discriminate.
  unfold callTool, handleGenerateImageTool.
  destruct (name =? "generate_image"); [|discriminate].
  destruct (isValidImageGenerationArgs arguments) as [[|]|e]; try discriminate.
  destruct (buildFormData arguments) as [formData|e]; [|discriminate].
  destruct (post upstream ENDPOINTS.FLUX_IMAGE formData) as [data|e]; [|discriminate].
  intros H. injection H as <-. reflexivity.
Qed.

Lemma handle_not_generated (this : FluxImageServer) (r : Request) :
  generated r = None -> handle this r = this.
Proof.
  destruct r as [upstream name arguments| | |]; simpl; try reflexivity.
  unfold callTool, handleGenerateImageTool.
  destruct (name =? "generate_image"); [|reflexivity].
  destruct (isValidImageGenerationArgs arguments) as [[|]|e]; try reflexivity.
  destruct (buildFormData arguments) as [formData|e]; simpl.
  - destruct (post upstream ENDPOINTS.FLUX_IMAGE formData) as [data|e]; [discriminate|].
    destruct e; reflexivity.
  - destruct e; reflexivity.
Qed.

(** The record of a successful generation holds the prompt of the request,
    the payload the call returned as text, and the time of the call. *)
Lemma generated_record (this : FluxImageServer) (upstream : Upstream)
    (name : string) (arguments : Value) (g : ImageGeneration) :
  generated (CallTool upstream name arguments) = Some g ->
  completion (callTool upstream this name arguments)
  = Return {| text := JSON_stringify (response g); isError := false |}
  /\ prompt g = get arguments "prompt"
  /\ timestamp g = now upstream.
Proof.
  simpl. unfold callTool, handleGenerateImageTool.
  destruct (name =? "generate_image"); [|discriminate].
  destruct (isValidImageGenerationArgs arguments) as [[|]|e]; try discriminate.
  destruct (buildFormData arguments) as [formData|e]; [|discriminate].
  destruct (post upstream ENDPOINTS.FLUX_IMAGE formData) as [data|e]; [|discriminate].
  intros H. injection H as <-. repeat split.
Qed.

(** A request yields a record exactly when its tool call ends with a result
    that is not an error. *)
Lemma generated_iff_success (this : FluxImageServer) (r : Request) :
  (exists g, generated r = Some g)
  <-> exists upstream name arguments t,
        r = CallTool upstream name arguments
        /\ completion (callTool upstream this name arguments)
           = Return {| text := t; isError := false |}.
Proof.
  split.
  - intros [g Hg]. destruct r as [upstream name arguments| | |]; try discriminate.
    simpl in Hg. exists upstream, name, arguments.
    unfold callTool, handleGenerateImageTool.
    destruct (name =? "generate_image"); [|discriminate].
    destruct (isValidImageGenerationArgs arguments) as [[|]|e]; try discriminate.
    destruct (buildFormData arguments) as [formData|e]; [|discriminate].
    destruct (post upstream ENDPOINTS.FLUX_IMAGE formData) as [data|e]; [|discriminate].
    exists (JSON_stringify data). split; reflexivity.
  - intros (upstream & name & arguments & t & -> & H). simpl.
    unfold callTool, handleGenerateImageTool in H.
    destruct (name =? "generate_image"); [|discriminate].
    destruct (isValidImageGenerationArgs arguments) as [[|]|e]; try discriminate.
    + destruct (buildFormData arguments) as [formData|e]; simpl in H.
      * destruct (post upstream ENDPOINTS.FLUX_IMAGE formData) as [data|e];
          [eexists; reflexivity|].
        simpl in H. destruct e; try discriminate.
        simpl in H. destruct (USVString (errorMessage response_data message));
          discriminate.
      * destruct e; try discriminate.
        simpl in H. destruct (USVString (errorMessage response_data message));
          discriminate.
Qed.

(** Inserting at the front of a cache within the cap and popping once when
    the cap is exceeded keeps the newest [MAX_CACHED_GENERATIONS] entries. *)
Lemma unshift_then_pop {A : Type} (x : A) (l : list A) :
  (List.length l <= MAX_CACHED_GENERATIONS)%nat ->
  (let cache := unshift x l in
   if (MAX_CACHED_GENERATIONS <? List.length cache)%nat then pop cache else cache)
  = firstn MAX_CACHED_GENERATIONS (x :: l)
  /\ firstn MAX_CACHED_GENERATIONS (x :: l)
     = x :: (if (List.length l =? MAX_CACHED_GENERATIONS)%nat then removelast l else l).
Proof.
  unfold MAX_CACHED_GENERATIONS, unshift, pop. intros Hlen.
  destruct l as [|a [|b [|c [|d [|e [|f l]]]]]]; simpl in Hlen; try lia;
    split; reflexivity.
Qed.

Lemma firstn_cons_firstn {A : Type} (n : nat) (x : A) (l : list A) :
  firstn (S n) (x :: firstn (S n) l) = firstn (S n) (x :: l).
Proof.
  rewrite !firstn_cons. f_equal. rewrite firstn_firstn. f_equal. lia.
Qed.

Lemma run_snoc (this : FluxImageServer) (rs : list Request) (r : Request) :
  run this (rs ++ [r]) = handle (run this rs) r.
Proof. unfold run. rewrite fold_left_app. reflexivity. Qed.

Lemma generations_app (rs rs' : list Request) :
  generations (rs ++ rs') = (generations rs ++ generations rs')%list.
Proof.
  induction rs as [|r rs IH]; simpl; [reflexivity|].
  destruct (generated r); simpl; rewrite IH; reflexivity.
Qed.

(** The cache after any sequence of requests: the newest
    [MAX_CACHED_GENERATIONS] records the sequence produced, newest first. *)
Lemma cache_after_run (rs : list Request) :
  recentImageGenerations (run initial rs)
  = firstn MAX_CACHED_GENERATIONS (rev (generations rs)).
Proof.
  induction rs as [|r rs IH] using rev_ind; [reflexivity|].
  rewrite run_snoc, generations_app. cbn [generations].
  destruct (generated r) as [g|] eqn:Hg.
  - rewrite (handle_generated _ _ _ Hg), IH.
    rewrite (proj1 (unshift_then_pop g _ (firstn_le_length _ _))).
    rewrite rev_unit. apply (firstn_cons_firstn 4).
  - rewrite (handle_not_generated _ _ Hg), app_nil_r. exact IH.
Qed.

(** C1. Starting from the empty cache, after every sequence of requests:
    the cache has at most 5 entries; it holds the newest [min N 5] of the [N]
    records that successful generations produced, newest first; and a further
    successful generation puts its record at index 0 and, when the cache was
    full, drops exactly the last entry (otherwise none), while a request that
    is not a successful generation changes nothing. *)
Theorem cache_is_bounded_and_newest_first (rs : list Request) :
  let cache := recentImageGenerations (run initial rs) in
  (List.length cache <= 5)%nat
  /\ cache = firstn 5 (rev (generations rs))
  /\ List.length cache = Nat.min (List.length (generations rs)) 5
  /\ (forall r g, generated r = Some g ->
        let cache' := recentImageGenerations (run initial (rs ++ [r])) in
        nth_error cache' 0 = Some g
        /\ cache' = g :: (if (List.length cache =? 5)%nat
                          then removelast cache else cache))
  /\ (forall r, generated r = None ->
        recentImageGenerations (run initial (rs ++ [r])) = cache).
Proof.
  intros cache.
  assert (Hcache : cache = firstn 5 (rev (generations rs)))
    by apply cache_after_run.
  assert (Hlen : (List.length cache <= 5)%nat)
    by (rewrite Hcache; apply firstn_le_length).
  split; [exact Hlen|]. split; [exact Hcache|]. split.
  - rewrite Hcache, length_firstn, length_rev. apply Nat.min_comm.
  - split.
    + intros r g Hg. simpl. rewrite run_snoc, (handle_generated _ _ _ Hg).
      fold cache.
      destruct (unshift_then_pop g cache Hlen) as [-> ->].
      split; reflexivity.
    + intros r Hg. rewrite run_snoc, (handle_not_generated _ _ Hg). reflexivity.
Qed.

(** ** Reading a resource *)

Lemma stripPrefix_app (p s : string) : stripPrefix p (p ++ s) = Some s.
Proof.
  induction p as [|c p IH]; simpl; [destruct s; reflexivity|].
  rewrite Ascii.eqb_refl. exact IH.
Qed.

(** A URI made of the prefix and a non-empty string of digits reads the
    entry at the position the digits denote (leading zeros allowed). *)
Lemma readResource_digits (this : FluxImageServer) (digits : string) :
  digits <> "" -> allDigits digits = true ->
  readResource this ("ohmygpt://images/" ++ digits)
  = match nth_error (recentImageGenerations this) (parseInt digits) with
    | Some generation =>
        Return {| uri := "ohmygpt://images/" ++ digits;
                  mimeType := "application/json";
                  contents_text := JSON_stringify (response generation) |}
    | None =>
        Throw (McpError InvalidRequest
                 ("Image generation not found: "
                  ++ Number_toString
                       (decimalToNumber false (Z.of_nat (parseInt digits)) 0)))
    end.
Proof.
  intros Hne Hdigits. unfold readResource, ohmygptMatch.
  rewrite stripPrefix_app.
  destruct digits as [|c r]; [contradiction|].
  rewrite Hdigits.
  destruct (nth_error (recentImageGenerations this) (parseInt (String c r)));
    reflexivity.
Qed.

(** The digits [Nat.to_uint] prints are read back by [spanDigits] and
    [digitsValue] as [Nat.of_uint] reads them. *)
Lemma span_string_of_uint (d : Decimal.uint) :
  allDigits (NilEmpty.string_of_uint d) = true
  /\ snd (spanDigits (NilEmpty.string_of_uint d)) = ""
  /\ forall acc : Z,
       (0 <= acc)%Z ->
       fold_left (fun a k => a * 10 + k)%Z
                 (fst (spanDigits (NilEmpty.string_of_uint d))) acc
       = Z.of_nat (Nat.of_uint_acc d (Z.to_nat acc)).
Proof.
  induction d as [|d IH|d IH|d IH|d IH|d IH|d IH|d IH|d IH|d IH|d IH];
    [ repeat split; intros acc Hacc; simpl; lia | .. ];
    destruct IH as (IHall & IHrest & IHval);
    cbn [NilEmpty.string_of_uint allDigits spanDigits];
    (split; [exact IHall|]);
    change (digitValue _) with (Some 0%Z) || change (digitValue _) with (Some 1%Z)
    || change (digitValue _) with (Some 2%Z) || change (digitValue _) with (Some 3%Z)
    || change (digitValue _) with (Some 4%Z) || change (digitValue _) with (Some 5%Z)
    || change (digitValue _) with (Some 6%Z) || change (digitValue _) with (Some 7%Z)
    || change (digitValue _) with (Some 8%Z) || change (digitValue _) with (Some 9%Z);
    cbv iota beta;
    destruct (spanDigits (NilEmpty.string_of_uint d)) as [ds rest];
    cbn [fst snd] in *;
    (split; [exact IHrest|]);
    intros acc Hacc; cbn [fold_left Nat.of_uint_acc];
    rewrite IHval by lia; rewrite Nat.tail_mul_spec;
    do 2 f_equal; lia.
Qed.

Lemma resourceUri_matches (index : nat) :
  exists digits,
    resourceUri index = "ohmygpt://images/" ++ digits
    /\ digits <> "" /\ allDigits digits = true /\ parseInt digits = index.
Proof.
  unfold resourceUri.
  exists (NilZero.string_of_uint (Nat.to_uint index)).
  split; [reflexivity|].
  pose proof (DecimalNat.Unsigned.of_to index) as Hround.
  unfold Nat.of_uint in Hround.
  destruct (span_string_of_uint (Nat.to_uint index)) as (Hall & _ & Hval).
  specialize (Hval 0%Z (Z.le_refl 0)). change (Z.to_nat 0) with 0%nat in Hval.
  rewrite Hround in Hval.
  unfold parseInt, digitsValue, NilZero.string_of_uint.
  destruct (Nat.to_uint index) eqn:E.
  1: { simpl in Hround. subst index. repeat split. discriminate. }
  all: (split; [discriminate|]); (split; [exact Hall|]);
    rewrite Hval; apply Nat2Z.id.
Qed.

(** C4. Reading the URI of index [i]: when [i] is a position of the cache,
    the result is the payload of the [i]-th record as formatted JSON text;
    when [i] is out of range, the protocol error [InvalidRequest]
    "Image generation not found" is thrown.  Right after a generation, index 0
    reads that generation's payload. *)
Theorem reading_an_image_resource (this : FluxImageServer) (i : nat) :
  let cache := recentImageGenerations this in
  ((i < List.length cache)%nat ->
     exists g,
       nth_error cache i = Some g
       /\ readResource this (resourceUri i)
          = Return {| uri := resourceUri i;
                      mimeType := "application/json";
                      contents_text := JSON_stringify (response g) |})
  /\ ((List.length cache <= i)%nat ->
      exists message,
        readResource this (resourceUri i)
        = Throw (McpError InvalidRequest ("Image generation not found: " ++ message)))
  /\ (forall r g, generated r = Some g ->
        readResource (handle this r) (resourceUri 0)
        = Return {| uri := resourceUri 0;
                    mimeType := "application/json";
                    contents_text := JSON_stringify (response g) |}).
Proof.
  intros cache.
  assert (Hread : forall (s : FluxImageServer) (n : nat),
            readResource s (resourceUri n)
            = match nth_error (recentImageGenerations s) n with
              | Some generation =>
                  Return {| uri := resourceUri n;
                            mimeType := "application/json";
                            contents_text := JSON_stringify (response generation) |}
              | None =>
                  Throw (McpError InvalidRequest
                           ("Image generation not found: "
                            ++ Number_toString (decimalToNumber false (Z.of_nat n) 0)))
              end).
  { intros s n. destruct (resourceUri_matches n) as (digits & -> & Hne & Hall & Hn).
    rewrite (readResource_digits s digits Hne Hall), Hn. reflexivity. }
  split; [|split].
  - intros Hlt. rewrite Hread. fold cache.
    destruct (nth_error cache i) as [g|] eqn:E; [exists g; split; reflexivity|].
    apply nth_error_None in E. lia.
  - intros Hle. rewrite Hread. fold cache.
    apply nth_error_None in Hle. rewrite Hle. eexists. reflexivity.
  - intros r g Hg. rewrite Hread, (handle_generated _ _ _ Hg).
    unfold unshift, pop. cbn zeta.
    destruct (recentImageGenerations this) as [|a l]; [reflexivity|].
    destruct (MAX_CACHED_GENERATIONS <? List.length (g :: a :: l))%nat; reflexivity.
Qed.

(** ** The form sent upstream *)

Lemma Number_returns_ToString (v : Json) (x : float) :
  Number (Some v) = Return x -> v <> JNull ->
  exists s, ToString v = Return s /\ toString (Some v) = Return s.
Proof.
  intros H Hnull. destruct v as [|b|y|s|l|o]; try contradiction.
  - eexists; split; reflexivity.
  - eexists; split; reflexivity.
  - eexists; split; reflexivity.
  - unfold Number, bind in H. unfold toString.
    destruct (ToString (JArray l)) as [s|e]; [|discriminate H].
    exists s. split; reflexivity.
  - unfold Number, bind in H. unfold toString.
    destruct (ToString (JObject o)) as [s|e]; [|discriminate H].
    exists s. split; reflexivity.
Qed.

Lemma string_form_of_coercible (v : Json) (x : float) :
  Number (Some v) = Return x ->
  exists s, ToString v = Return s /\ (v <> JNull -> toString (Some v) = Return s).
Proof.
  intros H. destruct v as [|b|y|t|l|o].
  1: { exists "null". split; [reflexivity|]. intros Hn. contradiction. }
  all: match goal with |- context [ToString ?v] =>
         destruct (Number_returns_ToString v x H ltac:(discriminate)) as (s & Hs & Hm)
       end; exists s; split; [exact Hs|]; intros _; exact Hm.
Qed.

Lemma includes_nonempty (candidates : list string) (v : Json) :
  includes candidates (Some v) = true ->
  existsb (String.eqb "") candidates = false ->
  exists s, v = JString s /\ truthy (Some v) = true.
Proof.
  destruct v as [| | |s| |]; intros H Hne; try discriminate H.
  exists s. split; [reflexivity|].
  unfold includes in H. unfold truthy.
  destruct (s =? "") eqn:E; [|reflexivity].
  apply String.eqb_eq in E. subst s. congruence.
Qed.

(** Every optional field of an accepted request has a string form, its
    [toString()] returns it unless the value is [null], and the fields with
    enumerated values hold non-empty strings. *)
Lemma accepted_string_forms (args : Value) (k : string) (v : Json) :
  isValidImageGenerationArgs args = Return true ->
  In k optionalFields -> get args k = Some v ->
  exists s,
    ToString v = Return s
    /\ (v <> JNull -> toString (Some v) = Return s)
    /\ (existsb (String.eqb k) truthyGuarded = true ->
        v = JString s /\ (k <> "image_prompt" -> truthy (Some v) = true)).
Proof.
  intros Hvalid Hk Hv.
  destruct (accepted_fields args Hvalid)
    as (_ & Hip & Hips & Har & Hst & Hsd & Hof & Hraw & Hrf).
  simpl in Hk.
  destruct Hk as [<-|[<-|[<-|[<-|[<-|[<-|[<-|[<-|[]]]]]]]]]; rewrite Hv in *.
  - destruct (typeof_string _ (Hip eq_refl)) as [s Hs]. injection Hs as ->.
    exists s. repeat split. intros Hk; contradiction.
  - destruct (Hips eq_refl) as (x & Hx & _).
    destruct (string_form_of_coercible v x Hx) as (s & Hs & Hm).
    exists s. split; [exact Hs|]. split; [exact Hm|].
    intros Hg. vm_compute in Hg. discriminate Hg.
  - destruct (includes_nonempty _ v (Har eq_refl) eq_refl) as (s & -> & Ht).
    exists s. repeat split. intros _. exact Ht.
  - destruct (Hst eq_refl) as (x & Hx & Hr).
    destruct (string_form_of_coercible v x Hx) as (s & Hs & Hm).
    exists s. split; [exact Hs|]. split; [exact Hm|].
    intros Hg. vm_compute in Hg. discriminate Hg.
  - destruct (Hsd eq_refl) as (x & Hx & _).
    destruct (string_form_of_coercible v x Hx) as (s & Hs & Hm).
    exists s. split; [exact Hs|]. split; [exact Hm|].
    intros Hg. vm_compute in Hg. discriminate Hg.
  - destruct (includes_nonempty _ v (Hof eq_refl) eq_refl) as (s & -> & Ht).
    exists s. repeat split. intros _. exact Ht.
  - specialize (Hraw eq_refl). destruct v; try discriminate Hraw.
    eexists. split; [reflexivity|]. split; [reflexivity|].
    intros Hg. vm_compute in Hg. discriminate Hg.
  - destruct (includes_nonempty _ v (Hrf eq_refl) eq_refl) as (s & -> & Ht).
    exists s. repeat split. intros _. exact Ht.
Qed.

(** A field taken when truthy, holding a string or nothing. *)
Lemma step_truthy (args : Value) (key : string) (formData : URLSearchParams) :
  existsb (String.eqb key) truthyGuarded = true ->
  (forall v, get args key = Some v -> exists s, v = JString s) ->
  (if truthy (get args key) then
     s <- USVString (get args key) ;; Return (append formData key s)
   else Return formData)
  = Return (formData ++ wireEntry args key)%list.
Proof.
  intros Hguard Hstring. unfold wireEntry. rewrite Hguard.
  destruct (get args key) as [v|]; [|simpl; rewrite app_nil_r; reflexivity].
  destruct (Hstring v eq_refl) as [s ->]. simpl.
  destruct (s =? ""); simpl; [rewrite app_nil_r|]; reflexivity.
Qed.

(** A field taken when defined, holding a value with a string form. *)
Lemma step_defined (args : Value) (key : string) (formData : URLSearchParams) :
  existsb (String.eqb key) truthyGuarded = false ->
  (forall v, get args key = Some v ->
     exists s, ToString v = Return s /\ toString (Some v) = Return s) ->
  (if defined (get args key) then
     s <- toString (get args key) ;; Return (append formData key s)
   else Return formData)
  = Return (formData ++ wireEntry args key)%list.
Proof.
  intros Hguard Hstring. unfold wireEntry. rewrite Hguard.
  destruct (get args key) as [v|]; [|simpl; rewrite app_nil_r; reflexivity].
  destruct (Hstring v eq_refl) as (s & Hs & Hm).
  cbn [defined andb]. rewrite Hm, Hs. reflexivity.
Qed.

(** The form of an accepted request in which no field that is serialized
    with [toString()] is [null]: the model, the prompt, and what each optional
    field contributes, in the order of [optionalFields]. *)
Lemma buildFormData_accepted (args : Value) :
  isValidImageGenerationArgs args = Return true ->
  get args "image_prompt_strength" <> Some JNull ->
  get args "seed" <> Some JNull ->
  exists p,
    get args "prompt" = Some (JString p)
    /\ buildFormData args
       = Return ([("model", DEFAULT_PARAMS.model); ("prompt", p)]
                   ++ flat_map (wireEntry args) optionalFields)%list.
Proof.
  intros Hvalid Hstrength Hseed.
  destruct (accepted_fields args Hvalid)
    as ((p & Hp & _) & _ & _ & _ & Hst & _ & _ & Hraw & _).
  assert (Hstring : forall k v, In k optionalFields -> get args k = Some v ->
            existsb (String.eqb k) truthyGuarded = true -> exists s, v = JString s).
  { intros k v Hk Hv Hg.
    destruct (accepted_string_forms args k v Hvalid Hk Hv) as (s & _ & _ & H).
    exists s. apply H. exact Hg. }
  assert (Hmethod : forall k v, In k optionalFields -> get args k = Some v ->
            v <> JNull ->
            exists s, ToString v = Return s /\ toString (Some v) = Return s).
  { intros k v Hk Hv Hnull.
    destruct (accepted_string_forms args k v Hvalid Hk Hv) as (s & Hs & Hm & _).
    exists s. split; [exact Hs|apply Hm; exact Hnull]. }
  exists p. split; [exact Hp|].
  unfold buildFormData. rewrite Hp. cbn [USVString ToString bind].
  rewrite (step_truthy args "image_prompt");
    [cbn [bind] | reflexivity | intros v Hv; eapply Hstring; eauto; simpl; tauto].
  rewrite (step_defined args "image_prompt_strength");
    [cbn [bind] | reflexivity
     | intros v Hv; eapply Hmethod; eauto; [simpl; tauto | congruence]].
  rewrite (step_truthy args "aspect_ratio");
    [cbn [bind] | reflexivity | intros v Hv; eapply Hstring; eauto; simpl; tauto].
  rewrite (step_defined args "safety_tolerance");
    [cbn [bind] | reflexivity | intros v Hv; eapply Hmethod; eauto; [simpl; tauto|]].
  2: { intros ->. rewrite Hv in Hst. destruct (Hst eq_refl) as (x & Hx & Hr).
       injection Hx as <-. discriminate Hr. }
  rewrite (step_defined args "seed");
    [cbn [bind] | reflexivity
     | intros v Hv; eapply Hmethod; eauto; [simpl; tauto | congruence]].
  rewrite (step_truthy args "output_format");
    [cbn [bind] | reflexivity | intros v Hv; eapply Hstring; eauto; simpl; tauto].
  rewrite (step_defined args "raw");
    [cbn [bind] | reflexivity | intros v Hv; eapply Hmethod; eauto; [simpl; tauto|]].
  2: { intros ->. rewrite Hv in Hraw. discriminate (Hraw eq_refl). }
  rewrite (step_truthy args "response_format");
    [cbn [bind] | reflexivity | intros v Hv; eapply Hstring; eauto; simpl; tauto].
  unfold append. cbn [flat_map optionalFields].
  rewrite <- !app_assoc, app_nil_r. reflexivity.
Qed.

Lemma wireEntry_origin (args : Value) (key k s : string) :
  In (k, s) (wireEntry args key) ->
  k = key /\ exists v, get args key = Some v /\ ToString v = Return s.
Proof.
  unfold wireEntry. destruct (get args key) as [v|]; [|intros []].
  destruct (existsb (String.eqb key) truthyGuarded && negb (truthy (Some v)));
    [intros []|].
  destruct (ToString v) as [s'|e] eqn:E; [|intros []].
  intros [H|[]]. injection H as <- <-. split; [reflexivity|].
  exists v. split; [reflexivity|exact E].
Qed.

(** An entry of the form comes from a supplied field, and from a truthy one
    when the field is taken only if truthy. *)
Lemma wireEntry_origin_truthy (args : Value) (key k s : string) :
  In (k, s) (wireEntry args key) ->
  k = key
  /\ exists v, get args key = Some v
               /\ ToString v = Return s
               /\ (existsb (String.eqb key) truthyGuarded = true ->
                   truthy (Some v) = true).
Proof.
  unfold wireEntry. destruct (get args key) as [v|]; [|intros []].
  destruct (existsb (String.eqb key) truthyGuarded) eqn:Eg; cbn [andb].
  - destruct (truthy (Some v)) eqn:Et; cbn [negb]; [|intros []].
    destruct (ToString v) as [s'|e] eqn:E; [|intros []].
    intros [H|[]]. injection H as <- <-. split; [reflexivity|].
    exists v. split; [reflexivity|]. split; [exact E|]. intros _. exact Et.
  - destruct (ToString v) as [s'|e] eqn:E; [|intros []].
    intros [H|[]]. injection H as <- <-. split; [reflexivity|].
    exists v. split; [reflexivity|]. split; [exact E|]. intros H. discriminate H.
Qed.

(** C2, as the claim states it, fails: an accepted request that supplies
    [image_prompt] as the empty string gets a form without that field,
    because the form takes [image_prompt] only when it is truthy. *)
Lemma empty_image_prompt_is_left_out :
  let args := Some (JObject [("prompt", JString "a cat");
                             ("image_prompt", JString "")]) in
  isValidImageGenerationArgs args = Return true
  /\ get args "image_prompt" = Some (JString "")
  /\ buildFormData args
     = Return [("model", "flux-1.1-pro-ultra"); ("prompt", "a cat")]
  /\ (forall form, buildFormData args = Return form ->
        ~ In "image_prompt" (map fst form)).
Proof.
  repeat split.
  intros form H. injection H as <-. simpl. intros [H|[H|[]]]; discriminate H.
Qed.

(** C2, amended.  For every accepted request in which neither
    [image_prompt_strength] nor [seed] is [null], the form is built; it
    holds the fixed model identifier and the prompt; it holds every optional
    field that is supplied, in its string form, except an [image_prompt] that
    is the empty string, which is left out like a field that is not supplied;
    it has no entry for an optional field that is not supplied; and each of
    its entries is the model, the prompt or the string form of a supplied
    optional field other than an empty [image_prompt], so that no default
    value is put in. *)
Theorem wire_form_of_accepted_request (args : Value) :
  isValidImageGenerationArgs args = Return true ->
  get args "image_prompt_strength" <> Some JNull ->
  get args "seed" <> Some JNull ->
  exists form p,
    buildFormData args = Return form
    /\ get args "prompt" = Some (JString p)
    /\ In ("model", "flux-1.1-pro-ultra") form
    /\ In ("prompt", p) form
    /\ (forall k v, In k optionalFields -> get args k = Some v ->
          (k, v) <> ("image_prompt", JString "") ->
          exists s, ToString v = Return s /\ In (k, s) form)
    /\ (get args "image_prompt" = Some (JString "") ->
          ~ In "image_prompt" (map fst form))
    /\ (forall k, In k optionalFields -> get args k = None ->
          ~ In k (map fst form))
    /\ (forall k s, In (k, s) form ->
          (k, s) = ("model", "flux-1.1-pro-ultra")
          \/ (k, s) = ("prompt", p)
          \/ (In k optionalFields
              /\ exists v, get args k = Some v
                           /\ (k, v) <> ("image_prompt", JString "")
                           /\ ToString v = Return s)).
Proof.
  intros Hvalid Hstrength Hseed.
  destruct (buildFormData_accepted args Hvalid Hstrength Hseed) as (p & Hp & Hform).
  eexists. exists p. split; [exact Hform|]. split; [exact Hp|].
  split; [left; reflexivity|]. split; [right; left; reflexivity|].
  assert (Hentries : forall k s,
            In (k, s) (flat_map (wireEntry args) optionalFields) ->
            In k optionalFields
            /\ exists v, get args k = Some v
                         /\ (k, v) <> ("image_prompt", JString "")
                         /\ ToString v = Return s).
  { intros k s Hin. apply in_flat_map in Hin. destruct Hin as (key & Hkey & Hin).
    destruct (wireEntry_origin_truthy args key k s Hin) as (-> & v & Hv & Hs & Ht).
    split; [exact Hkey|]. exists v. split; [exact Hv|]. split; [|exact Hs].
    intros Heq. injection Heq as -> ->.
    discriminate (Ht eq_refl). }
  assert (Hkeys : forall k,
            In k (map fst ([("model", DEFAULT_PARAMS.model); ("prompt", p)]
                             ++ flat_map (wireEntry args) optionalFields)%list) ->
            In k optionalFields ->
            exists v, get args k = Some v /\ (k, v) <> ("image_prompt", JString "")).
  { intros k Hin Hk. apply in_map_iff in Hin.
    destruct Hin as ([k' s] & Hfst & Hin). simpl in Hfst. subst k'.
    apply in_app_or in Hin. destruct Hin as [Hin|Hin].
    - exfalso. simpl in Hin, Hk.
      destruct Hin as [Hin|[Hin|[]]]; injection Hin as <- _;
        repeat (destruct Hk as [Hk|Hk]; [discriminate Hk|]); exact Hk.
    - destruct (Hentries k s Hin) as (_ & v & Hv & Hne & _).
      exists v. split; assumption. }
  split; [|split; [|split]].
  - intros k v Hk Hv Hne.
    destruct (accepted_string_forms args k v Hvalid Hk Hv) as (s & Hs & _ & Hg).
    exists s. split; [exact Hs|].
    apply in_or_app. right. apply in_flat_map. exists k. split; [exact Hk|].
    unfold wireEntry. rewrite Hv.
    destruct (existsb (String.eqb k) truthyGuarded) eqn:Eg; cbn [andb].
    + destruct (Hg eq_refl) as (-> & Ht).
      assert (Htruthy : truthy (Some (JString s)) = true).
      { destruct (String.eqb k "image_prompt") eqn:Ek.
        - apply String.eqb_eq in Ek. subst k. simpl.
          destruct (s =? "") eqn:Es; [|reflexivity].
          apply String.eqb_eq in Es. subst s. contradiction Hne. reflexivity.
        - apply Ht. intros ->. rewrite String.eqb_refl in Ek. discriminate Ek. }
      rewrite Htruthy. simpl. left. reflexivity.
    + rewrite Hs. left. reflexivity.
  - intros Hempty Hin.
    destruct (Hkeys "image_prompt" Hin ltac:(simpl; tauto)) as (v & Hv & Hne).
    rewrite Hempty in Hv. injection Hv as <-. apply Hne. reflexivity.
  - intros k Hk Hnone Hin.
    destruct (Hkeys k Hin Hk) as (v & Hv & _). congruence.
  - intros k s Hin. apply in_app_or in Hin. destruct Hin as [Hin|Hin].
    + destruct Hin as [Hin|[Hin|[]]]; [left|right; left]; symmetry; exact Hin.
    + right. right. apply Hentries. exact Hin.
Qed.

Lemma wire_form_witness :
  let args := Some (JObject [("prompt", JString "a cat");
                             ("image_prompt", JString "");
                             ("seed", JNumber 42);
                             ("raw", JBool false)]) in
  exists form p,
    buildFormData args = Return form
    /\ get args "prompt" = Some (JString p)
    /\ In ("model", "flux-1.1-pro-ultra") form
    /\ In ("prompt", p) form
    /\ (forall k v, In k optionalFields -> get args k = Some v ->
          (k, v) <> ("image_prompt", JString "") ->
          exists s, ToString v = Return s /\ In (k, s) form)
    /\ (get args "image_prompt" = Some (JString "") ->
          ~ In "image_prompt" (map fst form))
    /\ (forall k, In k optionalFields -> get args k = None ->
          ~ In k (map fst form))
    /\ (forall k s, In (k, s) form ->
          (k, s) = ("model", "flux-1.1-pro-ultra")
          \/ (k, s) = ("prompt", p)
          \/ (In k optionalFields
              /\ exists v, get args k = Some v
                           /\ (k, v) <> ("image_prompt", JString "")
                           /\ ToString v = Return s)).
Proof.
  apply (wire_form_of_accepted_request
           (Some (JObject [("prompt", JString "a cat");
                           ("image_prompt", JString "");
                           ("seed", JNumber 42);
                           ("raw", JBool false)]))).
  - reflexivity.
  - discriminate.
  - discriminate.
Defined.

(** When [seed] (or [image_prompt_strength]) is [null] the validator accepts,
    [Number(null)] being 0, and [null.toString()] then throws inside the [try]
    block: no form is built, nothing is sent, and the TypeError, not being an
    Axios error, leaves the handler. *)
Lemma null_seed_is_accepted_and_throws (upstream : Upstream) (this : FluxImageServer) :
  let args := Some (JObject [("prompt", JString "a cat"); ("seed", JNull)]) in
  isValidImageGenerationArgs args = Return true
  /\ buildFormData args = Throw TypeError
  /\ handleGenerateImageTool upstream this args
     = {| completion := Throw TypeError; server := this; requests := [] |}.
Proof. repeat split. Qed.

(** ** Worked examples *)

Example StringToNumber_examples :
  map StringToNumber ["1.5"; " 12 "; ""; "0x1F"; "-0x10"; "5."; "1e400"; "12abc"]
  = [1.5; 12; 0; 31; NaN; 5; infinity; NaN]%float.
Proof. vm_compute. reflexivity. Qed.

Example Number_toString_examples :
  map Number_toString [0.1; 1.5; 42; 1e21; 1e-7; 123.456; (-0.25); 0]%float
  = ["0.1"; "1.5"; "42"; "1e+21"; "1e-7"; "123.456"; "-0.25"; "0"].
Proof. vm_compute. reflexivity. Qed.

Example Number_examples :
  map Number [None; Some JNull; Some (JBool true); Some (JString "0.5");
              Some (JArray []); Some (JArray [JNumber 5]); Some (JObject [])]
  = map Return [NaN; 0; 1; 0.5; 0; 5; NaN]%float
  /\ Number (Some (JObject [("toString", JNumber 1)])) = Throw TypeError.
Proof. vm_compute. split; reflexivity. Qed.

Example JSON_stringify_example :
  JSON_stringify (JObject [("data", JArray [JObject [("url", JString "https://x/y.jpg")]]);
                           ("count", JNumber 1)])
  = "{" ++ LF
    ++ "  " ++ dquote ++ "data" ++ dquote ++ ": [" ++ LF
    ++ "    {" ++ LF
    ++ "      " ++ dquote ++ "url" ++ dquote ++ ": "
                ++ dquote ++ "https://x/y.jpg" ++ dquote ++ LF
    ++ "    }" ++ LF
    ++ "  ]," ++ LF
    ++ "  " ++ dquote ++ "count" ++ dquote ++ ": 1" ++ LF
    ++ "}".
Proof. vm_compute. reflexivity. Qed.

Example aspect_ratio_examples :
  isValidImageGenerationArgs
    (Some (JObject [("prompt", JString "a cat"); ("aspect_ratio", JString "16:9")]))
  = Return true
  /\ isValidImageGenerationArgs
       (Some (JObject [("prompt", JString "a cat"); ("aspect_ratio", JString "16:10")]))
     = Return false.
Proof. split; reflexivity. Qed.

Example buildFormData_example :
  buildFormData
    (Some (JObject [("prompt", JString "a cat"); ("seed", JNumber 42);
                    ("raw", JBool false); ("image_prompt_strength", JNumber 0.25);
                    ("response_format", JString "b64_json")]))
  = Return [("model", "flux-1.1-pro-ultra"); ("prompt", "a cat");
            ("image_prompt_strength", "0.25"); ("seed", "42"); ("raw", "false");
            ("response_format", "b64_json")].
Proof. vm_compute. reflexivity. Qed.

(** Six generations: the cache holds the last five, newest first, and the
    first one is gone. *)
Example six_generations :
  map response
      (recentImageGenerations
         (run initial [generation "a" 1; generation "b" 2; generation "c" 3;
                       generation "d" 4; generation "e" 5; generation "f" 6]))
  = [JObject [("id", JNumber 6)]; JObject [("id", JNumber 5)];
     JObject [("id", JNumber 4)]; JObject [("id", JNumber 3)];
     JObject [("id", JNumber 2)]].
Proof. vm_compute. reflexivity. Qed.

(** Failed and refused calls in between leave no trace. *)
Example failures_leave_no_trace :
  let failing :=
    CallTool {| post := fun _ _ => Throw (AxiosError None "Network Error");
                now := "2025-01-01T00:00:00.000Z" |}
             "generate_image" (Some (JObject [("prompt", JString "x")])) in
  let refused :=
    CallTool {| post := fun _ _ => Return JNull; now := "2025-01-01T00:00:00.000Z" |}
             "generate_image" (Some (JObject [("prompt", JString "  ")])) in
  map response
      (recentImageGenerations
         (run initial [generation "a" 1; failing; generation "b" 2; refused;
                       ReadResource "ohmygpt://images/0"]))
  = [JObject [("id", JNumber 2)]; JObject [("id", JNumber 1)]].
Proof. vm_compute. reflexivity. Qed.

(** With three records cached, index 0 reads the newest payload and index 5
    is not found. *)
Example reading_examples :
  let this := run initial [generation "a" 1; generation "b" 2; generation "c" 3] in
  readResource this "ohmygpt://images/0"
  = Return {| uri := "ohmygpt://images/0";
              mimeType := "application/json";
              contents_text := "{" ++ LF ++ "  " ++ dquote ++ "id" ++ dquote ++ ": 3"
                                   ++ LF ++ "}" |}
  /\ readResource this "ohmygpt://images/5"
     = Throw (McpError InvalidRequest "Image generation not found: 5")
  /\ readResource this "ohmygpt://images/x"
     = Throw (McpError InvalidRequest "Unknown resource: ohmygpt://images/x").
Proof. vm_compute. repeat split. Qed.

(* ================================================================== *)
(** * Further properties of the validator *)
(* ================================================================== *)

(** X1. The validator accepts exactly the inputs that satisfy every rule:
    a string prompt that is not blank, and for each optional field that is
    supplied, the rule of that field. *)
Theorem acceptance_is_the_conjunction_of_the_rules (args : Value) :
  isValidImageGenerationArgs args = Return true
  <-> (exists p, get args "prompt" = Some (JString p) /\ trim p <> "")
      /\ (defined (get args "image_prompt") = true ->
            typeof (get args "image_prompt") = "string")
      /\ (defined (get args "image_prompt_strength") = true ->
            exists x, Number (get args "image_prompt_strength") = Return x
                      /\ isNaN x || lt x 0 || gt x 1 = false)
      /\ (defined (get args "aspect_ratio") = true ->
            includes validRatios (get args "aspect_ratio") = true)
      /\ (defined (get args "safety_tolerance") = true ->
            exists x, Number (get args "safety_tolerance") = Return x
                      /\ negb (Number_isInteger x) || lt x 1 || gt x 6 = false)
      /\ (defined (get args "seed") = true ->
            exists x, Number (get args "seed") = Return x
                      /\ Number_isInteger x = true)
      /\ (defined (get args "output_format") = true ->
            includes ["jpg"; "png"] (get args "output_format") = true)
      /\ (defined (get args "raw") = true -> typeof (get args "raw") = "boolean")
      /\ (defined (get args "response_format") = true ->
            includes ["url"; "b64_json"] (get args "response_format") = true).
Proof.
  split.
  - apply accepted_fields.
  - apply accepted_when_all_rules_hold.
Qed.

Lemma includes_In (candidates : list string) (v : Json) :
  includes candidates (Some v) = true
  <-> exists s, v = JString s /\ In s candidates.
Proof.
  destruct v as [| | |s| |]; simpl;
    try (split; [intro H; discriminate H | intros (s' & H & _); discriminate H]).
  rewrite existsb_exists. split.
  - intros (t & Hin & Heq). apply String.eqb_eq in Heq. subst t.
    exists s. split; [reflexivity|exact Hin].
  - intros (t & Heq & Hin). injection Heq as <-.
    exists s. split; [exact Hin|apply String.eqb_refl].
Qed.

(** With the other rules satisfied, the verdict on a supplied field. *)
Lemma image_prompt_verdict (args : Value) (v : Json) :
  isValidImageGenerationArgs (omit "image_prompt" args) = Return true ->
  get args "image_prompt" = Some v ->
  isValidImageGenerationArgs args = Return (typeof (Some v) =? "string").
Proof.
  intros H Hv. unfold isValidImageGenerationArgs in *.
  reads_of_omit H. rewrite Hv. simpl defined.
  generalize (typeof (Some v) =? "string"). intro b.
  unfold bind in *. simpl in H. descend H.
  all: destruct b; reflexivity.
Qed.

Lemma aspect_ratio_verdict (args : Value) (v : Json) :
  isValidImageGenerationArgs (omit "aspect_ratio" args) = Return true ->
  get args "aspect_ratio" = Some v ->
  isValidImageGenerationArgs args = Return (includes validRatios (Some v)).
Proof.
  intros H Hv. unfold isValidImageGenerationArgs in *.
  reads_of_omit H. rewrite Hv. simpl defined.
  generalize (includes validRatios (Some v)). intro b.
  unfold bind in *. simpl in H. descend H.
  all: destruct b; reflexivity.
Qed.

Lemma output_format_verdict (args : Value) (v : Json) :
  isValidImageGenerationArgs (omit "output_format" args) = Return true ->
  get args "output_format" = Some v ->
  isValidImageGenerationArgs args = Return (includes ["jpg"; "png"] (Some v)).
Proof.
  intros H Hv. unfold isValidImageGenerationArgs in *.
  reads_of_omit H. rewrite Hv. simpl defined.
  generalize (includes ["jpg"; "png"] (Some v)). intro b.
  unfold bind in *. simpl in H. descend H.
  all: destruct b; reflexivity.
Qed.

Lemma raw_verdict (args : Value) (v : Json) :
  isValidImageGenerationArgs (omit "raw" args) = Return true ->
  get args "raw" = Some v ->
  isValidImageGenerationArgs args = Return (typeof (Some v) =? "boolean").
Proof.
  intros H Hv. unfold isValidImageGenerationArgs in *.
  reads_of_omit H. rewrite Hv. simpl defined.
  generalize (typeof (Some v) =? "boolean"). intro b.
  unfold bind in *. simpl in H. descend H.
  all: destruct b; reflexivity.
Qed.

Lemma numeric_verdict (key : string) (args : Value) (v : Json) :
  In key ["image_prompt_strength"; "safety_tolerance"; "seed"] ->
  isValidImageGenerationArgs (omit key args) = Return true ->
  get args key = Some v ->
  isValidImageGenerationArgs args
  = (x <- Number (Some v) ;;
     Return (negb (if key =? "image_prompt_strength"
                   then isNaN x || lt x 0 || gt x 1
                   else if key =? "safety_tolerance"
                   then negb (Number_isInteger x) || lt x 1 || gt x 6
                   else negb (Number_isInteger x)))).
Proof.
  intros Hkey H Hv.
  destruct (Number (Some v)) as [x|e] eqn:Hx.
  2: { apply (coercion_failure_is_thrown key args v e Hkey H Hv Hx). }
  simpl in Hkey. destruct Hkey as [<-|[<-|[<-|[]]]]; cbn [bind String.eqb Ascii.eqb Bool.eqb];
    unfold isValidImageGenerationArgs in *;
    reads_of_omit H; rewrite Hv; simpl defined; cbv iota; rewrite Hx;
    unfold bind in *; simpl in H; descend H.
  all: match goal with
       | |- context [if ?c then Return false else _] => destruct c; reflexivity
       end.
Qed.

(** X2. With the other rules satisfied, a supplied [aspect_ratio] is
    accepted exactly when it is one of the eleven ratio strings, which are
    the ones the tool schema advertises; any other string and any value that
    is not a string is answered with [false]. *)
Theorem aspect_ratio_is_one_of_the_advertised (args : Value) (v : Json) :
  isValidImageGenerationArgs (omit "aspect_ratio" args) = Return true ->
  get args "aspect_ratio" = Some v ->
  ((exists s, v = JString s /\ In s inputSchema.aspect_ratio_enum) ->
     isValidImageGenerationArgs args = Return true)
  /\ (~ (exists s, v = JString s /\ In s inputSchema.aspect_ratio_enum) ->
     isValidImageGenerationArgs args = Return false).
Proof.
  intros H Hv. rewrite (aspect_ratio_verdict args v H Hv).
  change inputSchema.aspect_ratio_enum with validRatios.
  split; intro Hm.
  - apply includes_In in Hm. rewrite Hm. reflexivity.
  - destruct (includes validRatios (Some v)) eqn:E; [|reflexivity].
    apply includes_In in E. contradiction.
Qed.

Lemma aspect_ratio_witness :
  isValidImageGenerationArgs
    (Some (JObject [("prompt", JString "a cat"); ("aspect_ratio", JString "16:9")]))
  = Return true
  /\ isValidImageGenerationArgs
       (Some (JObject [("prompt", JString "a cat"); ("aspect_ratio", JString "16:10")]))
     = Return false.
Proof.
  split.
  - refine (proj1 (aspect_ratio_is_one_of_the_advertised _ (JString "16:9") _ _) _);
      [reflexivity | reflexivity |].
    exists "16:9". split; [reflexivity|simpl; tauto].
  - refine (proj2 (aspect_ratio_is_one_of_the_advertised _ (JString "16:10") _ _) _);
      [reflexivity | reflexivity |].
    intros (s & Hs & Hin). injection Hs as <-. simpl in Hin.
    repeat (destruct Hin as [Hin|Hin]; [discriminate Hin|]). exact Hin.
Defined.

(** X3. With the other rules satisfied, a supplied [output_format] is
    accepted exactly when it is the string ["jpg"] or the string ["png"], the
    two values the tool schema advertises. *)
Theorem output_format_is_jpg_or_png (args : Value) (v : Json) :
  isValidImageGenerationArgs (omit "output_format" args) = Return true ->
  get args "output_format" = Some v ->
  (v = JString "jpg" \/ v = JString "png" ->
     isValidImageGenerationArgs args = Return true)
  /\ (~ (v = JString "jpg" \/ v = JString "png") ->
     isValidImageGenerationArgs args = Return false)
  /\ inputSchema.output_format_enum = ["jpg"; "png"].
Proof.
  intros H Hv. rewrite (output_format_verdict args v H Hv).
  assert (Hm : includes ["jpg"; "png"] (Some v) = true
               <-> v = JString "jpg" \/ v = JString "png").
  { rewrite includes_In. split.
    - intros (s & -> & [<-|[<-|[]]]); auto.
    - intros [->| ->]; eexists; (split; [reflexivity|simpl; tauto]). }
  split; [|split].
  - intro Hv'. apply Hm in Hv'. rewrite Hv'. reflexivity.
  - intro Hv'. destruct (includes ["jpg"; "png"] (Some v)); [|reflexivity].
    exfalso. apply Hv'. apply Hm. reflexivity.
  - reflexivity.
Qed.

Lemma output_format_witness :
  isValidImageGenerationArgs
    (Some (JObject [("prompt", JString "a cat"); ("output_format", JString "png")]))
  = Return true
  /\ isValidImageGenerationArgs
       (Some (JObject [("prompt", JString "a cat"); ("output_format", JString "gif")]))
     = Return false.
Proof.
  split.
  - refine (proj1 (output_format_is_jpg_or_png _ (JString "png") _ _) _);
      [reflexivity | reflexivity | right; reflexivity].
  - refine (proj1 (proj2 (output_format_is_jpg_or_png _ (JString "gif") _ _)) _);
      [reflexivity | reflexivity |].
    intros [H|H]; discriminate H.
Defined.

(** X4. With the other rules satisfied, a supplied [raw] is accepted exactly
    when it is a boolean: the strings ["true"] and ["false"], numbers and
    [null] are answered with [false]. *)
Theorem raw_is_a_boolean (args : Value) (v : Json) :
  isValidImageGenerationArgs (omit "raw" args) = Return true ->
  get args "raw" = Some v ->
  ((exists b, v = JBool b) -> isValidImageGenerationArgs args = Return true)
  /\ (~ (exists b, v = JBool b) -> isValidImageGenerationArgs args = Return false).
Proof.
  intros H Hv. rewrite (raw_verdict args v H Hv). split.
  - intros [b ->]. reflexivity.
  - intros Hn. destruct v; try reflexivity. exfalso. apply Hn. eexists. reflexivity.
Qed.

Lemma raw_witness :
  isValidImageGenerationArgs
    (Some (JObject [("prompt", JString "a cat"); ("raw", JBool false)]))
  = Return true
  /\ isValidImageGenerationArgs
       (Some (JObject [("prompt", JString "a cat"); ("raw", JString "true")]))
     = Return false.
Proof.
  split.
  - refine (proj1 (raw_is_a_boolean _ (JBool false) _ _) _);
      [reflexivity | reflexivity | exists false; reflexivity].
  - refine (proj2 (raw_is_a_boolean _ (JString "true") _ _) _);
      [reflexivity | reflexivity |].
    intros [b H]. discriminate H.
Defined.

(** X5. With the other rules satisfied, a supplied [image_prompt] is
    accepted exactly when it is a string; its content is not looked at, so
    the empty string passes. *)
Theorem image_prompt_is_a_string (args : Value) (v : Json) :
  isValidImageGenerationArgs (omit "image_prompt" args) = Return true ->
  get args "image_prompt" = Some v ->
  ((exists s, v = JString s) -> isValidImageGenerationArgs args = Return true)
  /\ (~ (exists s, v = JString s) -> isValidImageGenerationArgs args = Return false).
Proof.
  intros H Hv. rewrite (image_prompt_verdict args v H Hv). split.
  - intros [s ->]. reflexivity.
  - intros Hn. destruct v; try reflexivity. exfalso. apply Hn. eexists. reflexivity.
Qed.

Lemma image_prompt_witness :
  isValidImageGenerationArgs
    (Some (JObject [("prompt", JString "a cat"); ("image_prompt", JString "")]))
  = Return true
  /\ isValidImageGenerationArgs
       (Some (JObject [("prompt", JString "a cat"); ("image_prompt", JNumber 1)]))
     = Return false.
Proof.
  split.
  - refine (proj1 (image_prompt_is_a_string _ (JString "") _ _) _);
      [reflexivity | reflexivity | exists ""; reflexivity].
  - refine (proj2 (image_prompt_is_a_string _ (JNumber 1) _ _) _);
      [reflexivity | reflexivity |].
    intros [s H]. discriminate H.
Defined.

(** X6. With the other rules satisfied, a supplied [seed] that [Number]
    coerces to [x] is accepted exactly when [x] is an integer; there is no
    range check, so negative and very large integers pass, while fractions,
    [NaN] and the infinities do not. *)
Theorem seed_is_any_integer (args : Value) (v : Json) :
  isValidImageGenerationArgs (omit "seed" args) = Return true ->
  get args "seed" = Some v ->
  (forall x, Number (Some v) = Return x ->
     isValidImageGenerationArgs args = Return (Number_isInteger x))
  /\ (v = JNumber (-7) \/ v = JNumber 0 \/ v = JNumber 1e21 ->
        isValidImageGenerationArgs args = Return true)
  /\ (v = JNumber 1.5 \/ v = JNumber NaN \/ v = JNumber infinity ->
        isValidImageGenerationArgs args = Return false).
Proof.
  intros H Hv.
  assert (Hx : forall x, Number (Some v) = Return x ->
            isValidImageGenerationArgs args = Return (Number_isInteger x)).
  { intros x Hx.
    rewrite (numeric_verdict "seed" args v ltac:(simpl; tauto) H Hv), Hx.
    cbn [bind String.eqb Ascii.eqb Bool.eqb]. rewrite negb_involutive. reflexivity. }
  split; [exact Hx|]. split.
  - intros [->|[->| ->]]; erewrite Hx by reflexivity; reflexivity.
  - intros [->|[->| ->]]; erewrite Hx by reflexivity; reflexivity.
Qed.

Lemma seed_witness :
  isValidImageGenerationArgs
    (Some (JObject [("prompt", JString "a cat"); ("seed", JNumber (-7))]))
  = Return true
  /\ isValidImageGenerationArgs
       (Some (JObject [("prompt", JString "a cat"); ("seed", JNumber 1.5)]))
     = Return false.
Proof.
  split.
  - refine (proj1 (proj2 (seed_is_any_integer _ (JNumber (-7)) _ _)) _);
      [reflexivity | reflexivity | left; reflexivity].
  - refine (proj2 (proj2 (seed_is_any_integer _ (JNumber 1.5) _ _)) _);
      [reflexivity | reflexivity | left; reflexivity].
Defined.

(** X7. The numeric fields are judged by coercion only, not by type: with
    the other rules satisfied, two inputs whose [image_prompt_strength] (or
    [safety_tolerance], or [seed]) values have the same [Number] coercion get
    the same verdict.  A numeric string, a boolean, [null] or a one-element
    array is therefore accepted like the number it coerces to. *)
Theorem numeric_fields_are_judged_by_coercion
    (key : string) (args args' : Value) (v v' : Json) :
  In key ["image_prompt_strength"; "safety_tolerance"; "seed"] ->
  isValidImageGenerationArgs (omit key args) = Return true ->
  isValidImageGenerationArgs (omit key args') = Return true ->
  get args key = Some v ->
  get args' key = Some v' ->
  Number (Some v) = Number (Some v') ->
  isValidImageGenerationArgs args = isValidImageGenerationArgs args'.
Proof.
  intros Hkey H H' Hv Hv' Hn.
  rewrite (numeric_verdict key args v Hkey H Hv).
  rewrite (numeric_verdict key args' v' Hkey H' Hv').
  rewrite Hn. reflexivity.
Qed.

Lemma numeric_coercion_witness :
  isValidImageGenerationArgs
    (Some (JObject [("prompt", JString "a cat"); ("safety_tolerance", JString " 3 ")]))
  = isValidImageGenerationArgs
      (Some (JObject [("prompt", JString "a dog"); ("safety_tolerance", JNumber 3)]))
  /\ isValidImageGenerationArgs
       (Some (JObject [("prompt", JString "a cat"); ("image_prompt_strength", JBool true)]))
     = isValidImageGenerationArgs
         (Some (JObject [("prompt", JString "a cat");
                         ("image_prompt_strength", JArray [JNumber 1])])).
Proof.
  split.
  - apply (numeric_fields_are_judged_by_coercion "safety_tolerance" _ _
             (JString " 3 ") (JNumber 3));
      try reflexivity. simpl; tauto.
  - apply (numeric_fields_are_judged_by_coercion "image_prompt_strength" _ _
             (JBool true) (JArray [JNumber 1]));
      try reflexivity. simpl; tauto.
Defined.

(* ================================================================== *)
(** * Further properties of the tool handler *)
(* ================================================================== *)

(** X8. A property that is none of the nine fields is ignored: with or
    without it the validator gives the same verdict, the same form is built,
    and the handler ends the same way.  Unknown fields are neither refused
    nor sent upstream. *)
Theorem unknown_fields_are_ignored
    (key : string) (upstream : Upstream) (this : FluxImageServer) (args : Value) :
  ~ In key knownFields ->
  isValidImageGenerationArgs (omit key args) = isValidImageGenerationArgs args
  /\ buildFormData (omit key args) = buildFormData args
  /\ handleGenerateImageTool upstream this (omit key args)
     = handleGenerateImageTool upstream this args.
Proof.
  intros Hkey.
  assert (Hget : forall k, In k knownFields -> get (omit key args) k = get args k).
  { intros k Hk. apply get_omit_other. intros ->. contradiction. }
  assert (Hvalid : isValidImageGenerationArgs (omit key args)
                   = isValidImageGenerationArgs args).
  { unfold isValidImageGenerationArgs.
    rewrite truthy_omit, typeof_omit.
    rewrite !Hget by (simpl; tauto). reflexivity. }
  assert (Hform : buildFormData (omit key args) = buildFormData args).
  { unfold buildFormData. rewrite !Hget by (simpl; tauto). reflexivity. }
  split; [exact Hvalid|]. split; [exact Hform|].
  unfold handleGenerateImageTool. rewrite Hvalid, Hform.
  rewrite Hget by (simpl; tauto). reflexivity.
Qed.

Lemma unknown_fields_witness :
  let upstream := {| post := fun _ _ => Return JNull; now := "2025-01-01T00:00:00.000Z" |} in
  let args := Some (JObject [("prompt", JString "a cat"); ("width", JNumber 512)]) in
  isValidImageGenerationArgs (omit "width" args) = isValidImageGenerationArgs args
  /\ buildFormData (omit "width" args) = buildFormData args
  /\ handleGenerateImageTool upstream initial (omit "width" args)
     = handleGenerateImageTool upstream initial args.
Proof.
  apply (unknown_fields_are_ignored "width").
  simpl. intros H. repeat (destruct H as [H|H]; [discriminate H|]). exact H.
Defined.

(** What the builder does with an accepted request: a TypeError when
    [image_prompt_strength] or [seed] is [null], the form otherwise. *)
Lemma buildFormData_of_accepted (args : Value) :
  isValidImageGenerationArgs args = Return true ->
  (get args "image_prompt_strength" = Some JNull \/ get args "seed" = Some JNull ->
     buildFormData args = Throw TypeError)
  /\ (get args "image_prompt_strength" <> Some JNull ->
      get args "seed" <> Some JNull ->
      exists p,
        get args "prompt" = Some (JString p)
        /\ buildFormData args
           = Return ([("model", DEFAULT_PARAMS.model); ("prompt", p)]
                       ++ flat_map (wireEntry args) optionalFields)%list).
Proof.
  intros Hvalid. split; [|apply buildFormData_accepted; exact Hvalid].
  destruct (accepted_fields args Hvalid)
    as ((p & Hp & _) & _ & _ & _ & Hst & _ & _ & _ & _).
  assert (Hstring : forall k v, In k optionalFields -> get args k = Some v ->
            existsb (String.eqb k) truthyGuarded = true -> exists s, v = JString s).
  { intros k v Hk Hv Hg.
    destruct (accepted_string_forms args k v Hvalid Hk Hv) as (s & _ & _ & H).
    exists s. apply H. exact Hg. }
  assert (Hmethod : forall k v, In k optionalFields -> get args k = Some v ->
            v <> JNull ->
            exists s, ToString v = Return s /\ toString (Some v) = Return s).
  { intros k v Hk Hv Hnull.
    destruct (accepted_string_forms args k v Hvalid Hk Hv) as (s & Hs & Hm & _).
    exists s. split; [exact Hs|apply Hm; exact Hnull]. }
  assert (Hdec : get args "image_prompt_strength" = Some JNull
                 \/ get args "image_prompt_strength" <> Some JNull).
  { destruct (get args "image_prompt_strength") as [[| | | | |]|];
      (left; reflexivity) || (right; discriminate). }
  intros Hnull. unfold buildFormData. rewrite Hp. cbn [USVString ToString bind].
  rewrite (step_truthy args "image_prompt");
    [cbn [bind] | reflexivity | intros v Hv; eapply Hstring; eauto; simpl; tauto].
  destruct Hdec as [Hs|Hs]; [rewrite Hs; reflexivity|].
  destruct Hnull as [Hnull|Hnull]; [contradiction|].
  rewrite (step_defined args "image_prompt_strength");
    [cbn [bind] | reflexivity
     | intros v Hv; eapply Hmethod; eauto; [simpl; tauto | congruence]].
  rewrite (step_truthy args "aspect_ratio");
    [cbn [bind] | reflexivity | intros v Hv; eapply Hstring; eauto; simpl; tauto].
  rewrite (step_defined args "safety_tolerance");
    [cbn [bind] | reflexivity | intros v Hv; eapply Hmethod; eauto; [simpl; tauto|]].
  2: { intros ->. rewrite Hv in Hst. destruct (Hst eq_refl) as (x & Hx & Hr).
       injection Hx as <-. discriminate Hr. }
  rewrite Hnull. reflexivity.
Qed.

(** X9 (below) needs the keys of what the optional fields contribute. *)
Lemma wireEntry_keys (args : Value) (key : string) :
  map fst (wireEntry args key)
  = if match wireEntry args key with [] => false | _ :: _ => true end
    then [key] else [].
Proof.
  unfold wireEntry. destruct (get args key) as [v|]; [|reflexivity].
  destruct (existsb (String.eqb key) truthyGuarded && negb (truthy (Some v)));
    [reflexivity|].
  destruct (ToString v); reflexivity.
Qed.

Lemma flat_map_keys (args : Value) (keys : list string) :
  map fst (flat_map (wireEntry args) keys)
  = filter (fun k => match wireEntry args k with [] => false | _ :: _ => true end) keys.
Proof.
  induction keys as [|k keys IH]; [reflexivity|].
  cbn [flat_map filter]. rewrite map_app, IH, wireEntry_keys.
  destruct (match wireEntry args k with [] => false | _ :: _ => true end); reflexivity.
Qed.

(** X9. The form of an accepted request lists its fields in one fixed
    order, whatever the order of the properties in the request: the model,
    the prompt, then the optional fields it holds in the order
    [image_prompt], [image_prompt_strength], [aspect_ratio],
    [safety_tolerance], [seed], [output_format], [raw], [response_format];
    no field occurs twice. *)
Theorem form_fields_come_in_a_fixed_order (args : Value) (form : URLSearchParams) :
  isValidImageGenerationArgs args = Return true ->
  buildFormData args = Return form ->
  map fst form
  = "model" :: "prompt"
      :: filter (fun k => existsb (String.eqb k) (map fst form)) optionalFields
  /\ NoDup (map fst form).
Proof.
  intros Hvalid Hform.
  destruct (buildFormData_of_accepted args Hvalid) as [Hthrow Hbuilt].
  assert (Hstrength : get args "image_prompt_strength" <> Some JNull).
  { intros H. rewrite Hthrow in Hform by (left; exact H). discriminate Hform. }
  assert (Hseed : get args "seed" <> Some JNull).
  { intros H. rewrite Hthrow in Hform by (right; exact H). discriminate Hform. }
  destruct (Hbuilt Hstrength Hseed) as (p & _ & Hnormal).
  assert (Hf : form = ([("model", DEFAULT_PARAMS.model); ("prompt", p)]
                         ++ flat_map (wireEntry args) optionalFields)%list)
    by congruence.
  set (held := fun k => match wireEntry args k with [] => false | _ :: _ => true end).
  assert (Hkeys : map fst form = "model" :: "prompt" :: filter held optionalFields).
  { rewrite Hf, map_app, flat_map_keys. reflexivity. }
  rewrite Hkeys. split.
  - do 2 f_equal. apply filter_ext_in. intros k Hk.
    cbn [existsb].
    assert (Hm : (k =? "model") = false).
    { simpl in Hk. repeat (destruct Hk as [<-|Hk]; [reflexivity|]). destruct Hk. }
    assert (Hq : (k =? "prompt") = false).
    { simpl in Hk. repeat (destruct Hk as [<-|Hk]; [reflexivity|]). destruct Hk. }
    rewrite Hm, Hq. cbn [orb].
    destruct (held k) eqn:E.
    + symmetry. apply existsb_exists. exists k. split; [|apply String.eqb_refl].
      apply filter_In. split; assumption.
    + symmetry. apply not_true_iff_false. intros H.
      apply existsb_exists in H. destruct H as (k' & Hin & Heq).
      apply String.eqb_eq in Heq. subst k'.
      apply filter_In in Hin. destruct Hin as [_ Hin]. congruence.
  - assert (Hopt : NoDup optionalFields).
    { unfold optionalFields.
      repeat (constructor; [simpl; intros H;
                            repeat (destruct H as [H|H]; [discriminate H|]); exact H|]).
      constructor. }
    constructor.
    + intros [H|H]; [discriminate H|].
      apply filter_In in H. destruct H as [H _]. simpl in H.
      repeat (destruct H as [H|H]; [discriminate H|]). exact H.
    + constructor.
      * intros H. apply filter_In in H. destruct H as [H _]. simpl in H.
        repeat (destruct H as [H|H]; [discriminate H|]). exact H.
      * apply NoDup_filter. exact Hopt.
Qed.

Lemma form_order_witness :
  let form := [("model", "flux-1.1-pro-ultra"); ("prompt", "a cat");
               ("aspect_ratio", "16:9"); ("seed", "42")] in
  map fst form
  = "model" :: "prompt"
      :: filter (fun k => existsb (String.eqb k) (map fst form)) optionalFields
  /\ NoDup (map fst form).
Proof.
  apply (form_fields_come_in_a_fixed_order
           (Some (JObject [("seed", JNumber 42); ("aspect_ratio", JString "16:9");
                           ("prompt", JString "a cat")])));
    reflexivity.
Defined.

(** X10. For an accepted request the form is built exactly when neither
    [image_prompt_strength] nor [seed] is [null]; when one of them is, the
    handler throws a TypeError, sends nothing and leaves the server as it
    was. *)
Theorem form_is_built_unless_a_field_is_null (args : Value) :
  isValidImageGenerationArgs args = Return true ->
  ((exists form, buildFormData args = Return form)
   <-> get args "image_prompt_strength" <> Some JNull
       /\ get args "seed" <> Some JNull)
  /\ (get args "image_prompt_strength" = Some JNull \/ get args "seed" = Some JNull ->
      forall upstream this,
        handleGenerateImageTool upstream this args
        = {| completion := Throw TypeError; server := this; requests := [] |}).
Proof.
  intros Hvalid.
  destruct (buildFormData_of_accepted args Hvalid) as [Hthrow Hbuilt].
  split; [split|].
  - intros [form Hform]. split; intros H.
    + rewrite Hthrow in Hform by (left; exact H). discriminate Hform.
    + rewrite Hthrow in Hform by (right; exact H). discriminate Hform.
  - intros [Hs Hd]. destruct (Hbuilt Hs Hd) as (p & _ & H).
    eexists. exact H.
  - intros Hnull upstream this. unfold handleGenerateImageTool.
    rewrite Hvalid, (Hthrow Hnull). reflexivity.
Qed.

Lemma null_field_witness :
  let args := Some (JObject [("prompt", JString "a cat");
                             ("image_prompt_strength", JNull)]) in
  ((exists form, buildFormData args = Return form)
   <-> get args "image_prompt_strength" <> Some JNull
       /\ get args "seed" <> Some JNull)
  /\ (get args "image_prompt_strength" = Some JNull \/ get args "seed" = Some JNull ->
      forall upstream this,
        handleGenerateImageTool upstream this args
        = {| completion := Throw TypeError; server := this; requests := [] |}).
Proof.
  apply (form_is_built_unless_a_field_is_null
           (Some (JObject [("prompt", JString "a cat");
                           ("image_prompt_strength", JNull)]))).
  reflexivity.
Defined.

(** X11. One tool call sends at most one HTTP request, always to the image
    endpoint, and only for a request the validator accepted and whose form
    was built: an input that is refused, or on which validation or form
    building throws, reaches the upstream service never, and nothing is
    retried after a failure. *)
Theorem at_most_one_request_and_only_when_accepted
    (upstream : Upstream) (this : FluxImageServer) (params : Value) :
  let outcome := handleGenerateImageTool upstream this params in
  (requests outcome = []
   /\ (isValidImageGenerationArgs params <> Return true
       \/ exists e, buildFormData params = Throw e))
  \/ (exists formData,
        isValidImageGenerationArgs params = Return true
        /\ buildFormData params = Return formData
        /\ requests outcome = [(ENDPOINTS.FLUX_IMAGE, formData)]).
Proof.
  unfold handleGenerateImageTool.
  destruct (isValidImageGenerationArgs params) as [[|]|e] eqn:Hvalid.
  - destruct (buildFormData params) as [formData|e] eqn:Hform; simpl.
    + right. exists formData. split; [reflexivity|]. split; [reflexivity|].
      destruct (post upstream ENDPOINTS.FLUX_IMAGE formData) as [data|e];
        [reflexivity|]. destruct e; reflexivity.
    + left. split; [destruct e; reflexivity|]. right. exists e. reflexivity.
  - left. split; [reflexivity|]. left. discriminate.
  - left. split; [reflexivity|]. left. discriminate.
Qed.

(** Induction on a JSON value that reaches the elements of an array. *)
Lemma Json_elements_ind (P : Json -> Prop) :
  P JNull ->
  (forall b, P (JBool b)) ->
  (forall x, P (JNumber x)) ->
  (forall s, P (JString s)) ->
  (forall elements, Forall P elements -> P (JArray elements)) ->
  (forall properties, P (JObject properties)) ->
  forall v, P v.
Proof.
  intros Hnull Hbool Hnumber Hstring Harray Hobject.
  refine (fix IH (v : Json) : P v :=
            match v with
            | JNull => Hnull
            | JBool b => Hbool b
            | JNumber x => Hnumber x
            | JString s => Hstring s
            | JArray elements =>
                Harray elements
                  ((fix all (l : list Json) : Forall P l :=
                      match l with
                      | [] => Forall_nil P
                      | x :: rest => Forall_cons x (IH x) (all rest)
                      end) elements)
            | JObject properties => Hobject properties
            end).
Qed.

(** ToString throws nothing but a TypeError. *)
Lemma ToString_throws_TypeError (v : Json) (e : Exception) :
  ToString v = Throw e -> e = TypeError.
Proof.
  revert e. induction v as [|b|x|s|elements IH|properties] using Json_elements_ind;
    intros e H; simpl in H; try discriminate H.
  - revert e H. induction IH as [|a rest Ha _ IHrest]; intros e H;
      [discriminate H|].
    unfold bind in H.
    destruct (match a with JNull => Return EmptyString | _ => ToString a end)
      as [s|e'] eqn:Ea.
    + destruct rest as [|b rest']; [discriminate H|].
      match type of H with
      | match ?j with _ => _ end = _ => destruct j as [t|e''] eqn:Erest
      end; [discriminate H|].
      injection H as <-. apply IHrest. exact Erest.
    + assert (He : e = e').
      { destruct rest; injection H as <-; reflexivity. }
      subst e'. destruct a; try discriminate Ea; apply (Ha _ Ea).
  - destruct (hasOwn "toString" properties); [|discriminate H].
    injection H as <-. reflexivity.
Qed.

Lemma Number_throws_TypeError (v : Value) (e : Exception) :
  Number v = Throw e -> e = TypeError.
Proof.
  destruct v as [[|b|x|s|l|o]|]; try discriminate; unfold Number, bind.
  - destruct (ToString (JArray l)) eqn:E; [discriminate|].
    intros H. injection H as <-. apply (ToString_throws_TypeError _ _ E).
  - destruct (ToString (JObject o)) eqn:E; [discriminate|].
    intros H. injection H as <-. apply (ToString_throws_TypeError _ _ E).
Qed.

Lemma toString_throws_TypeError (v : Value) (e : Exception) :
  toString v = Throw e -> e = TypeError.
Proof.
  destruct v as [[| | | | |]|]; unfold toString; intros H;
    first [ apply (ToString_throws_TypeError _ _ H)
          | injection H as <-; reflexivity ].
Qed.

Lemma USVString_throws_TypeError (v : Value) (e : Exception) :
  USVString v = Throw e -> e = TypeError.
Proof.
  destruct v as [j|]; unfold USVString; [apply ToString_throws_TypeError|discriminate].
Qed.

(** Follows a computation that ended in [Throw e] back to the conversion
    that threw. *)
Ltac thrown H :=
  repeat match type of H with
         | Return _ = Throw _ => discriminate H
         | Throw ?e' = Throw _ =>
             injection H as <-;
             first [ eapply Number_throws_TypeError; eassumption
                   | eapply toString_throws_TypeError; eassumption
                   | eapply USVString_throws_TypeError; eassumption
                   | eapply ToString_throws_TypeError; eassumption ]
         | context [match Number ?v with _ => _ end] =>
             let E := fresh "E" in destruct (Number v) eqn:E; simpl in H
         | context [match toString ?v with _ => _ end] =>
             let E := fresh "E" in destruct (toString v) eqn:E; simpl in H
         | context [match USVString ?v with _ => _ end] =>
             let E := fresh "E" in destruct (USVString v) eqn:E; simpl in H
         | context [if ?c then _ else _] =>
             let E := fresh "E" in destruct c eqn:E; simpl in H
         | context [match ?x with _ => _ end] =>
             let E := fresh "E" in destruct x eqn:E; simpl in H
         end.

Lemma validator_throws_TypeError (args : Value) (e : Exception) :
  isValidImageGenerationArgs args = Throw e -> e = TypeError.
Proof.
  intros H. unfold isValidImageGenerationArgs, bind in H. thrown H.
Qed.

Lemma bind_throws {A B : Type} (r : Result A) (k : A -> Result B) (e : Exception) :
  bind r k = Throw e -> r = Throw e \/ exists a, k a = Throw e.
Proof.
  destruct r as [a|e']; simpl; intros H.
  - right. exists a. exact H.
  - left. injection H as <-. reflexivity.
Qed.

Lemma step_throws (c : bool) (conversion : Result string)
    (formData : URLSearchParams) (key : string) (e : Exception) :
  (if c then s <- conversion ;; Return (append formData key s) else Return formData)
  = Throw e ->
  conversion = Throw e.
Proof.
  destruct c; [|discriminate]. destruct conversion; [discriminate|].
  simpl. intros H. injection H as <-. reflexivity.
Qed.

Lemma buildFormData_throws_TypeError (params : Value) (e : Exception) :
  buildFormData params = Throw e -> e = TypeError.
Proof.
  intros H. unfold buildFormData in H.
  apply bind_throws in H.
  destruct H as [H|[prompt H]]; [apply (USVString_throws_TypeError _ _ H)|].
  do 8 (apply bind_throws in H;
        destruct H as [H|[? H]];
        [ apply step_throws in H;
          first [ apply (USVString_throws_TypeError _ _ H)
                | apply (toString_throws_TypeError _ _ H) ] | ]).
  discriminate H.
Qed.

(** X12. Only three kinds of exception leave the tool handler: the protocol
    error [InvalidParams] (when the validator answered [false]), a TypeError
    (from a coercion), and an exception of the upstream call that is not an
    Axios error, passed on as it is.  An Axios error never leaves the
    handler. *)
Theorem exceptions_that_leave_the_handler
    (upstream : Upstream) (this : FluxImageServer) (params : Value) (e : Exception) :
  completion (handleGenerateImageTool upstream this params) = Throw e ->
  isAxiosError e = false
  /\ ((e = McpError InvalidParams "Invalid image generation arguments"
       /\ isValidImageGenerationArgs params = Return false)
      \/ e = TypeError
      \/ (exists formData,
            buildFormData params = Return formData
            /\ post upstream ENDPOINTS.FLUX_IMAGE formData = Throw e)).
Proof.
  unfold handleGenerateImageTool.
  destruct (isValidImageGenerationArgs params) as [[|]|e0] eqn:Hvalid.
  - destruct (buildFormData params) as [formData|e0] eqn:Hform; simpl.
    + destruct (post upstream ENDPOINTS.FLUX_IMAGE formData) as [data|e0] eqn:Hpost;
        simpl; [discriminate|].
      destruct e0 as [|code m|body m|d]; simpl; intros H.
      * injection H as <-. split; [reflexivity|]. right. left. reflexivity.
      * injection H as <-. split; [reflexivity|].
        right. right. exists formData. split; [reflexivity|exact Hpost].
      * apply bind_throws in H. destruct H as [H|[s H]]; [|discriminate H].
        apply USVString_throws_TypeError in H. subst e.
        split; [reflexivity|]. right. left. reflexivity.
      * injection H as <-. split; [reflexivity|].
        right. right. exists formData. split; [reflexivity|exact Hpost].
    + apply buildFormData_throws_TypeError in Hform. subst e0. simpl.
      intros H. injection H as <-. split; [reflexivity|]. right. left. reflexivity.
  - simpl. intros H. injection H as <-. split; [reflexivity|].
    left. split; reflexivity.
  - apply validator_throws_TypeError in Hvalid. subst e0. simpl.
    intros H. injection H as <-. split; [reflexivity|]. right. left. reflexivity.
Qed.

Lemma exceptions_witness :
  let timeout :=
    {| post := fun _ _ => Throw (OtherError "aborted");
       now := "2025-01-01T00:00:00.000Z" |} in
  let params := Some (JObject [("prompt", JString "a cat")]) in
  isAxiosError (OtherError "aborted") = false
  /\ ((OtherError "aborted" = McpError InvalidParams "Invalid image generation arguments"
       /\ isValidImageGenerationArgs params = Return false)
      \/ OtherError "aborted" = TypeError
      \/ (exists formData,
            buildFormData params = Return formData
            /\ post timeout ENDPOINTS.FLUX_IMAGE formData = Throw (OtherError "aborted"))).
Proof.
  apply (exceptions_that_leave_the_handler
           {| post := fun _ _ => Throw (OtherError "aborted");
              now := "2025-01-01T00:00:00.000Z" |}
           initial (Some (JObject [("prompt", JString "a cat")]))).
  reflexivity.
Defined.

(** X13. What a tool call answers and what it sends do not depend on the
    cache: with the same arguments and the same upstream behaviour, the
    completion and the request are the same from any two server states. *)
Theorem answer_does_not_depend_on_the_cache
    (upstream : Upstream) (this this' : FluxImageServer)
    (name : string) (arguments : Value) :
  completion (callTool upstream this name arguments)
  = completion (callTool upstream this' name arguments)
  /\ requests (callTool upstream this name arguments)
     = requests (callTool upstream this' name arguments).
Proof.
  unfold callTool, handleGenerateImageTool.
  destruct (name =? "generate_image"); [|split; reflexivity].
  destruct (isValidImageGenerationArgs arguments) as [[|]|e];
    [|split; reflexivity ..].
  destruct (buildFormData arguments) as [formData|e]; simpl.
  - destruct (post upstream ENDPOINTS.FLUX_IMAGE formData) as [data|e]; simpl;
      [split; reflexivity|].
    destruct e; split; reflexivity.
  - destruct e; split; reflexivity.
Qed.

(** ** Reading back *)

(** What reading the URI of index [n] gives. *)
Lemma readResource_at (this : FluxImageServer) (n : nat) :
  readResource this (resourceUri n)
  = match nth_error (recentImageGenerations this) n with
    | Some generation =>
        Return {| uri := resourceUri n;
                  mimeType := "application/json";
                  contents_text := JSON_stringify (response generation) |}
    | None =>
        Throw (McpError InvalidRequest
                 ("Image generation not found: "
                  ++ Number_toString (decimalToNumber false (Z.of_nat n) 0)))
    end.
Proof.
  destruct (resourceUri_matches n) as (digits & -> & Hne & Hall & Hn).
  rewrite (readResource_digits this digits Hne Hall), Hn. reflexivity.
Qed.

Lemma head_after_generation (this : FluxImageServer) (r : Request) (g : ImageGeneration) :
  generated r = Some g ->
  nth_error (recentImageGenerations (handle this r)) 0 = Some g.
Proof.
  intros Hg. rewrite (handle_generated _ _ _ Hg). unfold unshift, pop. cbn zeta.
  destruct (recentImageGenerations this) as [|a l]; [reflexivity|].
  destruct (MAX_CACHED_GENERATIONS <? List.length (g :: a :: l))%nat; reflexivity.
Qed.

(** X14. What a successful tool call returns is what the resource of index
    0 serves afterwards: when a call ends with a result that is not an error,
    reading [ohmygpt://images/0] from the server it leaves returns the text
    of that result. *)
Theorem tool_result_is_served_at_index_0
    (upstream : Upstream) (this : FluxImageServer)
    (name : string) (arguments : Value) (t : string) :
  completion (callTool upstream this name arguments)
  = Return {| text := t; isError := false |} ->
  readResource (server (callTool upstream this name arguments)) "ohmygpt://images/0"
  = Return {| uri := "ohmygpt://images/0";
              mimeType := "application/json";
              contents_text := t |}.
Proof.
  intros H.
  destruct (proj2 (generated_iff_success this (CallTool upstream name arguments)))
    as [g Hg].
  { exists upstream, name, arguments, t. split; [reflexivity|exact H]. }
  destruct (generated_record this upstream name arguments g Hg) as (Hc & _ & _).
  rewrite Hc in H. injection H as <-.
  change "ohmygpt://images/0" with (resourceUri 0).
  change (server (callTool upstream this name arguments))
    with (handle this (CallTool upstream name arguments)).
  rewrite readResource_at, (head_after_generation _ _ _ Hg). reflexivity.
Qed.

Lemma served_at_index_0_witness :
  let upstream :=
    {| post := fun _ _ => Return (JObject [("id", JNumber 7)]);
       now := "2025-01-01T00:00:00.000Z" |} in
  let arguments := Some (JObject [("prompt", JString "a cat")]) in
  readResource (server (callTool upstream initial "generate_image" arguments))
               "ohmygpt://images/0"
  = Return {| uri := "ohmygpt://images/0";
              mimeType := "application/json";
              contents_text := JSON_stringify (JObject [("id", JNumber 7)]) |}.
Proof.
  apply (tool_result_is_served_at_index_0
           {| post := fun _ _ => Return (JObject [("id", JNumber 7)]);
              now := "2025-01-01T00:00:00.000Z" |}
           initial "generate_image" (Some (JObject [("prompt", JString "a cat")]))).
  reflexivity.
Defined.

(* ================================================================== *)
(** * Further properties of the resources *)
(* ================================================================== *)

Lemma stripPrefix_Some (p s r : string) :
  stripPrefix p s = Some r -> s = p ++ r.
Proof.
  revert s. induction p as [|a p IH]; intros s; simpl.
  - intros H. injection H as <-. reflexivity.
  - destruct s as [|b s]; [discriminate|].
    destruct (Ascii.eqb a b) eqn:E; [|discriminate].
    apply Ascii.eqb_eq in E. subst b. intros H. rewrite (IH s H). reflexivity.
Qed.

(** X15. Reading throws "Unknown resource" exactly for the URIs that are not
    [ohmygpt://images/] followed by one or more decimal digits and nothing
    else; a sign, a space, a fraction or a trailing slash makes the URI
    unknown.  Whatever the URI, the only exception a read throws is the
    protocol error [InvalidRequest]. *)
Theorem unknown_resources_are_refused (this : FluxImageServer) (request_uri : string) :
  (readResource this request_uri
   = Throw (McpError InvalidRequest ("Unknown resource: " ++ request_uri))
   <-> ~ (exists digits,
            digits <> "" /\ allDigits digits = true
            /\ request_uri = "ohmygpt://images/" ++ digits))
  /\ (forall e, readResource this request_uri = Throw e ->
        exists message, e = McpError InvalidRequest message).
Proof.
  split; [split|].
  - intros H (digits & Hne & Hall & ->).
    rewrite (readResource_digits this digits Hne Hall) in H.
    destruct (nth_error (recentImageGenerations this) (parseInt digits));
      [discriminate H|].
    injection H as H. discriminate H.
  - intros Hno. unfold readResource, ohmygptMatch.
    destruct (stripPrefix "ohmygpt://images/" request_uri) as [[|c r]|] eqn:E;
      try reflexivity.
    destruct (allDigits (String c r)) eqn:Hall; [|reflexivity].
    exfalso. apply Hno. exists (String c r).
    split; [discriminate|]. split; [exact Hall|].
    apply stripPrefix_Some. exact E.
  - intros e. unfold readResource.
    destruct (ohmygptMatch request_uri) as [digits|].
    + destruct (nth_error (recentImageGenerations this) (parseInt digits));
        [discriminate|].
      intros H. injection H as <-. eexists. reflexivity.
    + intros H. injection H as <-. eexists. reflexivity.
Qed.

Lemma Forall_firstn {A : Type} (P : A -> Prop) (n : nat) (l : list A) :
  Forall P l -> Forall P (firstn n l).
Proof.
  intros H. revert n. induction H as [|x l Hx _ IH]; intros [|n]; simpl;
    constructor; auto.
Qed.

Lemma In_firstn {A : Type} (n : nat) (l : list A) (x : A) :
  In x (firstn n l) -> In x l.
Proof.
  revert n. induction l as [|a l IH]; intros [|n]; simpl; try tauto.
  intros [H|H]; [left; exact H|right; exact (IH n H)].
Qed.

Lemma generated_prompt (r : Request) (g : ImageGeneration) :
  generated r = Some g ->
  exists p, prompt g = Some (JString p) /\ trim p <> "".
Proof.
  destruct r as [upstream name arguments| | |]; simpl; try discriminate.
  destruct (name =? "generate_image"); [|discriminate].
  destruct (isValidImageGenerationArgs arguments) as [[|]|e] eqn:Hvalid;
    try discriminate.
  destruct (buildFormData arguments) as [formData|e]; [|discriminate].
  destruct (post upstream ENDPOINTS.FLUX_IMAGE formData) as [data|e]; [|discriminate].
  intros H. injection H as <-. simpl.
  destruct (accepted_fields arguments Hvalid) as (Hp & _). exact Hp.
Qed.

Lemma generations_prompts (rs : list Request) :
  Forall (fun g => exists p, prompt g = Some (JString p) /\ trim p <> "")
         (generations rs).
Proof.
  induction rs as [|r rs IH]; simpl; [constructor|].
  destruct (generated r) as [g|] eqn:Hg; [|exact IH].
  constructor; [|exact IH]. apply (generated_prompt r g Hg).
Qed.

Lemma cached_prompts_are_nonblank_strings_aux (rs : list Request) :
  Forall (fun g => exists p, prompt g = Some (JString p) /\ trim p <> "")
         (recentImageGenerations (run initial rs)).
Proof.
  rewrite cache_after_run. apply Forall_firstn. apply Forall_rev.
  apply generations_prompts.
Qed.

(** X16. Every record the cache ever holds has a prompt that is a string
    and is not blank, and a record is there only because a generation
    produced it: after any sequence of requests from the empty cache, each
    cached record is among the records of the successful generations, and
    its [prompt] is a string whose trimmed form is not empty. *)
Theorem cached_prompts_are_nonblank_strings (rs : list Request) :
  Forall (fun g => In g (generations rs)
                   /\ exists p, prompt g = Some (JString p) /\ trim p <> "")
         (recentImageGenerations (run initial rs)).
Proof.
  apply Forall_forall. intros g Hin. split.
  - rewrite cache_after_run in Hin. apply In_firstn in Hin.
    apply in_rev. exact Hin.
  - pose proof (cached_prompts_are_nonblank_strings_aux rs) as H.
    rewrite Forall_forall in H. apply H. exact Hin.
Qed.

Lemma listFrom_strings (index : nat) (entries : list ImageGeneration) :
  Forall (fun g => exists p, prompt g = Some (JString p) /\ trim p <> "") entries ->
  exists resources,
    listFrom index entries = Return resources
    /\ map Resource.uri resources
       = map resourceUri (seq index (List.length entries))
    /\ Forall (fun r => Resource.mimeType r = "application/json") resources.
Proof.
  intros H. revert index. induction H as [|g rest (p & Hp & _) _ IH]; intros index.
  - exists []. repeat split. constructor.
  - destruct (IH (S index)) as (resources & Hrest & Huris & Hmime).
    simpl. unfold listedResource. rewrite Hp. cbn [bind]. rewrite Hrest. cbn [bind].
    eexists. split; [reflexivity|]. split.
    + simpl. rewrite Huris. reflexivity.
    + constructor; [reflexivity|exact Hmime].
Qed.

(** X17. After any sequence of requests from the empty cache the listing
    does not throw: it returns one resource per cached record, at most five,
    in cache order, the [i]-th with the URI of index [i] and the media type
    [application/json]. *)
Theorem listing_follows_the_cache (rs : list Request) :
  let cache := recentImageGenerations (run initial rs) in
  exists resources,
    listResources (run initial rs) = Return resources
    /\ List.length resources = List.length cache
    /\ (List.length resources <= 5)%nat
    /\ map Resource.uri resources = map resourceUri (seq 0 (List.length cache))
    /\ Forall (fun r => Resource.mimeType r = "application/json") resources.
Proof.
  intros cache.
  destruct (listFrom_strings 0 cache (cached_prompts_are_nonblank_strings_aux rs))
    as (resources & Hlist & Huris & Hmime).
  exists resources. split; [exact Hlist|].
  assert (Hlen : List.length resources = List.length cache).
  { rewrite <- (length_map Resource.uri), Huris, length_map, length_seq. reflexivity. }
  split; [exact Hlen|]. split; [|split; assumption].
  rewrite Hlen. unfold cache. rewrite cache_after_run. apply firstn_le_length.
Qed.

Lemma listFrom_nth (index : nat) (entries : list ImageGeneration)
    (resources : list Resource.t) (i : nat) (r : Resource.t) :
  listFrom index entries = Return resources ->
  nth_error resources i = Some r ->
  exists g, nth_error entries i = Some g
            /\ listedResource g (index + i) = Return r.
Proof.
  revert index resources i.
  induction entries as [|g rest IH]; intros index resources i Hlist Hr.
  - injection Hlist as <-. destruct i; discriminate Hr.
  - simpl in Hlist. unfold bind in Hlist.
    destruct (listedResource g index) as [r0|e] eqn:Hg; [|discriminate Hlist].
    destruct (listFrom (S index) rest) as [rs|e] eqn:Hrest; [|discriminate Hlist].
    injection Hlist as <-. destruct i as [|i]; simpl in Hr.
    + injection Hr as <-. exists g. rewrite Nat.add_0_r. split; [reflexivity|exact Hg].
    + destruct (IH (S index) rs i Hrest Hr) as (g' & Hnth & Hres).
      exists g'. split; [exact Hnth|].
      rewrite <- Nat.add_succ_comm. exact Hres.
Qed.

(** X18. Whatever the listing returns can be read: for every resource the
    listing gives at position [i], reading its URI from the same server
    returns the payload of the [i]-th cached record as formatted JSON text,
    under the media type the listing announced. *)
Theorem listed_resources_can_be_read
    (this : FluxImageServer) (resources : list Resource.t) (i : nat) (r : Resource.t) :
  listResources this = Return resources ->
  nth_error resources i = Some r ->
  exists g,
    nth_error (recentImageGenerations this) i = Some g
    /\ readResource this (Resource.uri r)
       = Return {| uri := Resource.uri r;
                   mimeType := Resource.mimeType r;
                   contents_text := JSON_stringify (response g) |}.
Proof.
  intros Hlist Hr.
  destruct (listFrom_nth 0 _ _ i r Hlist Hr) as (g & Hnth & Hres).
  exists g. split; [exact Hnth|].
  unfold listedResource in Hres. simpl in Hres.
  destruct (prompt g) as [[| | |p| |]|]; try discriminate Hres.
  injection Hres as <-. cbn [Resource.uri Resource.mimeType].
  rewrite readResource_at, Hnth. reflexivity.
Qed.

Lemma listed_resources_witness :
  let this := run initial [generation "a cat" 1; generation "a dog" 2] in
  exists g,
    nth_error (recentImageGenerations this) 1 = Some g
    /\ readResource this "ohmygpt://images/1"
       = Return {| uri := "ohmygpt://images/1";
                   mimeType := "application/json";
                   contents_text := JSON_stringify (response g) |}.
Proof.
  apply (listed_resources_can_be_read
           (run initial [generation "a cat" 1; generation "a dog" 2])
           [ {| Resource.uri := "ohmygpt://images/0";
                Resource.name := "Recent image: a dog";
                Resource.mimeType := "application/json";
                Resource.description :=
                  "Image generation for: a dog (2025-01-01T00:00:00.000Z)" |};
             {| Resource.uri := "ohmygpt://images/1";
                Resource.name := "Recent image: a cat";
                Resource.mimeType := "application/json";
                Resource.description :=
                  "Image generation for: a cat (2025-01-01T00:00:00.000Z)" |} ]
           1
           {| Resource.uri := "ohmygpt://images/1";
              Resource.name := "Recent image: a cat";
              Resource.mimeType := "application/json";
              Resource.description :=
                "Image generation for: a cat (2025-01-01T00:00:00.000Z)" |});
    reflexivity.
Defined.

Lemma append_empty_r (s : string) : s ++ "" = s.
Proof. induction s as [|c s IH]; simpl; [reflexivity|]. rewrite IH. reflexivity. Qed.

Lemma length_append (s t : string) :
  String.length (s ++ t) = (String.length s + String.length t)%nat.
Proof. induction s as [|c s IH]; simpl; [reflexivity|]. rewrite IH. reflexivity. Qed.

Lemma length_substring_0 (n : nat) (s : string) :
  String.length (substring 0 n s) = Nat.min n (String.length s).
Proof.
  revert s. induction n as [|n IH]; intros [|c s]; simpl; try reflexivity.
  rewrite IH. reflexivity.
Qed.

Lemma substring_0_all (n : nat) (s : string) :
  (String.length s <= n)%nat -> substring 0 n s = s.
Proof.
  revert s. induction n as [|n IH]; intros [|c s]; simpl; intros H;
    try reflexivity; try lia.
  rewrite IH by lia. reflexivity.
Qed.

(** X19. The label of a listed resource shows a prompt of at most 30 code
    units in full and a longer one cut to its first 30 code units followed by
    three dots, so the label is never longer than 47 code units; the
    description holds the whole prompt and the time stamp.  A record whose
    prompt is not a string cannot be listed: the callback throws. *)
Theorem listed_name_is_the_truncated_prompt
    (g : ImageGeneration) (index : nat) (r : Resource.t) :
  listedResource g index = Return r ->
  exists p,
    prompt g = Some (JString p)
    /\ ((String.length p <= 30)%nat -> Resource.name r = "Recent image: " ++ p)
    /\ ((30 < String.length p)%nat ->
        Resource.name r = "Recent image: " ++ substring 0 30 p ++ "..."
        /\ String.length (Resource.name r) = 47%nat)
    /\ (String.length (Resource.name r) <= 47)%nat
    /\ Resource.description r
       = "Image generation for: " ++ p ++ " (" ++ timestamp g ++ ")".
Proof.
  unfold listedResource.
  destruct (prompt g) as [[| | |p| |]|]; try discriminate.
  intros H. injection H as <-. exists p. cbn [Resource.name Resource.description].
  split; [reflexivity|].
  assert (Hlen : forall t,
            String.length ("Recent image: " ++ substring 0 30 p ++ t)
            = (14 + Nat.min 30 (String.length p) + String.length t)%nat).
  { intros t. rewrite !length_append, length_substring_0. simpl. lia. }
  split; [|split; [|split]].
  - intros Hshort. destruct (30 <? String.length p)%nat eqn:E.
    + apply Nat.ltb_lt in E. lia.
    + rewrite substring_0_all by exact Hshort.
      rewrite append_empty_r. reflexivity.
  - intros Hlong. apply Nat.ltb_lt in Hlong as E. rewrite E.
    split; [reflexivity|].
    transitivity (14 + Nat.min 30 (String.length p) + String.length "...")%nat;
      [exact (Hlen "...") | change (String.length "...") with 3%nat; lia].
  - destruct (30 <? String.length p)%nat;
      match goal with
      | |- (?n <= 47)%nat =>
          first [ assert (Hn : n = (14 + Nat.min 30 (String.length p)
                                    + String.length "...")%nat)
                    by exact (Hlen "...")
                | assert (Hn : n = (14 + Nat.min 30 (String.length p)
                                    + String.length "")%nat)
                    by exact (Hlen "") ]
      end;
      rewrite Hn;
      change (String.length "...") with 3%nat;
      change (String.length "") with 0%nat; lia.
  - reflexivity.
Qed.

Lemma listed_name_witness :
  let g := {| prompt := Some (JString "a very long prompt that goes on and on");
              response := JNull;
              timestamp := "2025-01-01T00:00:00.000Z" |} in
  exists p,
    prompt g = Some (JString p)
    /\ ((String.length p <= 30)%nat ->
        "Recent image: a very long prompt that goes o..." = "Recent image: " ++ p)
    /\ ((30 < String.length p)%nat ->
        "Recent image: a very long prompt that goes o..."
        = "Recent image: " ++ substring 0 30 p ++ "..."
        /\ String.length "Recent image: a very long prompt that goes o..." = 47%nat)
    /\ (String.length "Recent image: a very long prompt that goes o..." <= 47)%nat
    /\ "Image generation for: a very long prompt that goes on and on (2025-01-01T00:00:00.000Z)"
       = "Image generation for: " ++ p ++ " (" ++ timestamp g ++ ")".
Proof.
  apply (listed_name_is_the_truncated_prompt
           {| prompt := Some (JString "a very long prompt that goes on and on");
              response := JNull;
              timestamp := "2025-01-01T00:00:00.000Z" |}
           3
           {| Resource.uri := "ohmygpt://images/3";
              Resource.name := "Recent image: a very long prompt that goes o...";
              Resource.mimeType := "application/json";
              Resource.description :=
                "Image generation for: a very long prompt that goes on and on (2025-01-01T00:00:00.000Z)" |}).
  reflexivity.
Defined.

(** X20. A record stays in the cache until five newer ones have arrived,
    whatever else is requested in between: after [k] further successful
    generations the record of a generation is at index [k], where it can be
    read, as long as [k] is below 5; from the fifth on it is gone, and the
    cache holds records of later generations only. *)
Theorem a_record_stays_until_five_newer_ones
    (rs rs' : list Request) (r : Request) (g : ImageGeneration) :
  generated r = Some g ->
  let k := List.length (generations rs') in
  let this := run initial (rs ++ r :: rs') in
  ((k < 5)%nat ->
     nth_error (recentImageGenerations this) k = Some g
     /\ readResource this (resourceUri k)
        = Return {| uri := resourceUri k;
                    mimeType := "application/json";
                    contents_text := JSON_stringify (response g) |})
  /\ ((5 <= k)%nat ->
     recentImageGenerations this = firstn 5 (rev (generations rs'))).
Proof.
  intros Hg k this.
  assert (Hcache : recentImageGenerations this
                   = firstn 5 (rev (generations rs') ++ g :: rev (generations rs))%list).
  { unfold this. rewrite cache_after_run, generations_app. cbn [generations].
    rewrite Hg, rev_app_distr. cbn [rev]. rewrite <- app_assoc. reflexivity. }
  assert (Hk : List.length (rev (generations rs')) = k) by apply length_rev.
  split.
  - intros Hlt.
    assert (Hnth : nth_error (recentImageGenerations this) k = Some g).
    { rewrite Hcache, nth_error_firstn.
      apply Nat.ltb_lt in Hlt as ->.
      rewrite nth_error_app2 by lia. rewrite Hk, Nat.sub_diag. reflexivity. }
    split; [exact Hnth|]. rewrite readResource_at, Hnth. reflexivity.
  - intros Hge. rewrite Hcache, firstn_app.
    replace (5 - List.length (rev (generations rs')))%nat with 0%nat by lia.
    cbn [firstn]. apply app_nil_r.
Qed.

Lemma a_record_stays_witness :
  let g := {| prompt := Some (JString "a cat");
              response := JObject [("id", JNumber 1)];
              timestamp := "2025-01-01T00:00:00.000Z" |} in
  let this :=
    run initial ([generation "zero" 0]
                   ++ generation "a cat" 1
                   :: [generation "b" 2; ListResources; generation "c" 3]) in
  ((2 < 5)%nat ->
     nth_error (recentImageGenerations this) 2 = Some g
     /\ readResource this (resourceUri 2)
        = Return {| uri := resourceUri 2;
                    mimeType := "application/json";
                    contents_text := JSON_stringify (response g) |})
  /\ ((5 <= 2)%nat ->
     recentImageGenerations this
     = firstn 5 (rev (generations [generation "b" 2; ListResources; generation "c" 3]))).
Proof.
  apply (a_record_stays_until_five_newer_ones
           [generation "zero" 0]
           [generation "b" 2; ListResources; generation "c" 3]
           (generation "a cat" 1)).
  reflexivity.
Defined.

(* ================================================================== *)
(** * An Axios error whose message has no string form *)
(* ================================================================== *)

(** C3. The handler means to turn every Axios error into a tool result,
    and does not when the upstream error body carries a [message] that is an
    object with an own property [toString]: the template literal of the
    [catch] block then throws a TypeError, which leaves the handler in place
    of the tool-level error result.  This holds for every server state,
    whatever the value of that property and the error's own message; the
    request has been sent and the cache is as before. *)
Theorem axios_error_with_unprintable_message_is_thrown
    (this : FluxImageServer) (v : Json) (message : string) :
  let body := Some (JObject [("message", JObject [("toString", v)])]) in
  let failing :=
    {| post := fun _ _ => Throw (AxiosError body message);
       now := "2025-01-01T00:00:00.000Z" |} in
  let params := Some (JObject [("prompt", JString "a cat")]) in
  isValidImageGenerationArgs params = Return true
  /\ post failing ENDPOINTS.FLUX_IMAGE
          [("model", "flux-1.1-pro-ultra"); ("prompt", "a cat")]
     = Throw (AxiosError body message)
  /\ isAxiosError (AxiosError body message) = true
  /\ handleGenerateImageTool failing this params
     = {| completion := Throw TypeError;
          server := this;
          requests := [(ENDPOINTS.FLUX_IMAGE,
                        [("model", "flux-1.1-pro-ultra"); ("prompt", "a cat")])] |}.
Proof. repeat split. Qed.
